(** * Axiograph plugin scripts: model and verified properties

    The repository ships small Python scripts that speak a JSON
    request/response protocol with the Axiograph REPL:

    - [scripts/axiograph_llm_plugin_mock.py]  (module [LlmMock])
    - [scripts/axiograph_world_model_plugin_real.py]  (module [WmReal])
    - [scripts/axiograph_world_model_plugin_onnx.py]  (module [WmOnnx])
    - [scripts/axiograph_world_model_plugin_baseline.py]  (module [WmBaseline])

    The scripts are embedded function by function.  Python values are the
    inductive [value]; an operation that can raise returns a [result]; what a
    script writes on standard output and its exit status form a [process]. *)

From Stdlib Require Import ZArith List String Ascii Bool Lia DecimalString.
From Stdlib Require Import Floats.SpecFloat.
Import ListNotations.
Open Scope string_scope.
Open Scope list_scope.

(** String concatenation, kept apart from list append. *)
Notation "a +++ b" := (String.append a b) (at level 60, right associativity).

(** ** Python values and builtins *)
Module Py.

(** Python floats are binary64 numbers. *)
Definition float := spec_float.

Definition float_of_Z (z : Z) : float := binary_normalize 53 1024 z 0 false.

(** The float literals of the scripts, as the binary64 numbers nearest to
    them (mantissa, exponent). *)
Definition f0_5 : float := S754_finite false 4503599627370496 (-53).
Definition f0_55 : float := S754_finite false 4953959590107546 (-53).
Definition f0_6 : float := S754_finite false 5404319552844595 (-53).
Definition f0_7 : float := S754_finite false 6305039478318694 (-53).
Definition f0_9 : float := S754_finite false 8106479329266893 (-53).
Definition f0_95 : float := S754_finite false 8556839292003942 (-53).
Definition f0_0 : float := S754_zero false.
Definition f1_0 : float := S754_finite false 4503599627370496 (-52).

Definition float_ltb (a b : float) : bool := SFltb a b.
Definition float_leb (a b : float) : bool := SFleb a b.

Definition float_is_nan (f : float) : bool :=
  match f with S754_nan => true | _ => false end.

Definition float_is_zero (f : float) : bool :=
  match f with S754_zero _ => true | _ => false end.

(** [a <= f <= b] on floats; false when [f] is NaN. *)
Definition float_between (a b f : float) : bool :=
  float_leb a f && float_leb f b.

(** Exact comparison of a float with an integer, as [==] does. *)
Definition float_eq_Z (f : float) (z : Z) : bool :=
  match f with
  | S754_zero _ => Z.eqb z 0
  | S754_finite s m e =>
      let zm := if s then Z.neg m else Z.pos m in
      if Z.leb 0 e then Z.eqb z (zm * 2 ^ e) else Z.eqb (z * 2 ^ (- e)) zm
  | _ => false
  end.

(** Hashable values: what a dict can have as a key.  [json.loads] only
    produces string keys; the other keys arise from dict comprehensions over
    request data. *)
Inductive key :=
| KNone
| KBool (b : bool)
| KInt (z : Z)
| KFloat (f : float)
| KStr (s : string).

(** The values the scripts handle: what [json.loads] returns and what the
    scripts build from it.  A dict keeps its items in insertion order. *)
#[local] Set Warnings "-register-all".
Inductive value :=
| VNone
| VBool (b : bool)
| VInt (z : Z)
| VFloat (f : float)
| VStr (s : string)
| VList (l : list value)
| VDict (d : list (key * value)).

Notation "k ':->' v" := (KStr k, v) (at level 65, no associativity).

Inductive num := NZ (z : Z) | NF (f : float).

Definition key_num (k : key) : option num :=
  match k with
  | KBool b => Some (NZ (if b then 1 else 0))
  | KInt z => Some (NZ z)
  | KFloat f => Some (NF f)
  | _ => None
  end.

(** Numeric equality across [bool], [int] and [float].  Two NaN keys are the
    same key: every NaN a request holds is the one constant of the json
    module, and dict lookup tests identity first. *)
Definition num_eqb (a b : num) : bool :=
  match a, b with
  | NZ x, NZ y => Z.eqb x y
  | NZ x, NF f | NF f, NZ x => float_eq_Z f x
  | NF f, NF g => SFeqb f g || (float_is_nan f && float_is_nan g)
  end.

(** Key equality of dict lookup: [1], [True] and [1.0] are one key. *)
Definition key_eqb (a b : key) : bool :=
  match a, b with
  | KNone, KNone => true
  | KStr s, KStr t => String.eqb s t
  | _, _ =>
      match key_num a, key_num b with
      | Some x, Some y => num_eqb x y
      | _, _ => false
      end
  end.

Definition key_value (k : key) : value :=
  match k with
  | KNone => VNone
  | KBool b => VBool b
  | KInt z => VInt z
  | KFloat f => VFloat f
  | KStr s => VStr s
  end.

(** [None] for the unhashable values (lists and dicts). *)
Definition to_key (v : value) : option key :=
  match v with
  | VNone => Some KNone
  | VBool b => Some (KBool b)
  | VInt z => Some (KInt z)
  | VFloat f => Some (KFloat f)
  | VStr s => Some (KStr s)
  | VList _ | VDict _ => None
  end.

(** *** Exceptions and results *)

(** The subclasses of [Exception] the scripts can meet.  [External] is a
    failure of a collaborator: the network, the file system or the model
    runtime. *)
Inductive exception :=
| AttributeError
| TypeError
| ValueError
| KeyError
| IndexError
| OverflowError
| JSONDecodeError
| RuntimeError (msg : string)
| External (msg : string).

Inductive result (A : Type) :=
| Ok (a : A)
| Raise (e : exception).
Arguments Ok {A} a.
Arguments Raise {A} e.

Definition bind {A B} (c : result A) (k : A -> result B) : result B :=
  match c with
  | Ok a => k a
  | Raise e => Raise e
  end.

Notation "x <- c ;; k" := (bind c (fun x => k))
  (at level 61, c at next level, right associativity).
Notation "' p <- c ;; k" := (bind c (fun x => match x with p => k end))
  (at level 61, p pattern, c at next level, right associativity).

Definition is_ok {A} (r : result A) : bool :=
  match r with Ok _ => true | Raise _ => false end.

Definition of_option {A} (e : exception) (o : option A) : result A :=
  match o with Some a => Ok a | None => Raise e end.

(** Runs [f] over a list from left to right and stops at the first raise. *)
Fixpoint mapM {A B} (f : A -> result B) (l : list A) : result (list B) :=
  match l with
  | [] => Ok []
  | a :: rest => b <- f a ;; bs <- mapM f rest ;; Ok (b :: bs)
  end.

(** *** Output of a script *)

(** One [sys.stdout.write]: the text of [json.dumps v], or a literal. *)
Inductive chunk :=
| Dump (v : value)
| Text (s : string).

(** What a run leaves behind: the writes on standard output, in order, and
    the exit status. *)
Record process := { stdout : list chunk; exit_code : Z }.

(** The text on standard input, seen through what the scripts do with it:
    it is blank ([raw.strip()] is empty), or it is not JSON, or it is the
    JSON text of a value. *)
Inductive stdin_text :=
| Blank
| NotJson
| JsonText (v : value).

(** [json.load(sys.stdin)] and [json.loads(sys.stdin.read())] *)
Definition load_stdin (raw : stdin_text) : result value :=
  match raw with
  | JsonText v => Ok v
  | Blank | NotJson => Raise JSONDecodeError
  end.

(** *** Strings

    A string is a sequence of code points; the model covers the code points
    below 256.  The one literal of the scripts with a code point above that
    (an arrow in a rationale text) stands as its UTF-8 bytes; nothing
    inspects it. *)

Definition dquote : string := String "034"%char EmptyString.

Definition code (c : ascii) : nat := nat_of_ascii c.

Definition between (lo hi n : nat) : bool := Nat.leb lo n && Nat.leb n hi.

(** [str.isspace] on one character. *)
Definition is_space (c : ascii) : bool :=
  let n := code c in
  between 9 13 n || between 28 32 n || Nat.eqb n 133 || Nat.eqb n 160.

(** [str.isdigit] on one character: the ASCII digits and the superscripts
    one, two and three. *)
Definition is_digit_char (c : ascii) : bool :=
  let n := code c in
  between 48 57 n || Nat.eqb n 178 || Nat.eqb n 179 || Nat.eqb n 185.

Definition is_ascii_digit (c : ascii) : bool := between 48 57 (code c).

Definition lower_char (c : ascii) : ascii :=
  let n := code c in
  if between 65 90 n || (between 192 222 n && negb (Nat.eqb n 215))
  then ascii_of_nat (n + 32) else c.

Definition chars (s : string) : list ascii := list_ascii_of_string s.
Definition of_chars (l : list ascii) : string := string_of_list_ascii l.

(** [s.lower()] *)
Definition lower (s : string) : string := of_chars (map lower_char (chars s)).

Fixpoint drop_spaces (l : list ascii) : list ascii :=
  match l with
  | c :: rest => if is_space c then drop_spaces rest else l
  | [] => []
  end.

(** [s.strip()] *)
Definition strip (s : string) : string :=
  of_chars (rev (drop_spaces (rev (drop_spaces (chars s))))).

(** The scan of [str.split()]: [cur] holds the current token, reversed. *)
Fixpoint split_scan (cur : list ascii) (l : list ascii) : list string :=
  match l with
  | [] => match cur with [] => [] | _ => [of_chars (rev cur)] end
  | c :: rest =>
      if is_space c
      then match cur with
           | [] => split_scan [] rest
           | _ => of_chars (rev cur) :: split_scan [] rest
           end
      else split_scan (c :: cur) rest
  end.

(** [s.split()]: the maximal runs of non-space characters. *)
Definition split (s : string) : list string := split_scan [] (chars s).

(** [s.isdigit()] *)
Definition isdigit (s : string) : bool :=
  match chars s with
  | [] => false
  | l => forallb is_digit_char l
  end.

(** [s.startswith(p)] *)
Definition startswith (p s : string) : bool := String.prefix p s.

(** [sep.join(l)] *)
Fixpoint join (sep : string) (l : list string) : string :=
  match l with
  | [] => ""
  | [s] => s
  | s :: rest => s +++ sep +++ join sep rest
  end.

(** [x in l] for a string [x] and a list of strings. *)
Definition mem (x : string) (l : list string) : bool :=
  existsb (String.eqb x) l.

(** [l.index(x)] when [x in l]. *)
Fixpoint index_of (x : string) (l : list string) : option nat :=
  match l with
  | [] => None
  | y :: rest => if String.eqb y x then Some 0%nat
                 else option_map S (index_of x rest)
  end.

(** Decimal text of an integer: [str(n)]. *)
Definition dec (z : Z) : string := NilZero.string_of_int (Z.to_int z).
Definition dec_nat (n : nat) : string := dec (Z.of_nat n).

Fixpoint digits_value (acc : Z) (l : list ascii) : Z :=
  match l with
  | [] => acc
  | c :: rest => digits_value (10 * acc + Z.of_nat (code c - 48)) rest
  end.

(** [int(s)] on a string that passed [isdigit]: the decimal value when
    every character is an ASCII digit; the superscript digits are digits for
    [isdigit] and not for [int], which raises [ValueError] on them.  (The
    interpreter's optional cap on the number of digits is not modelled.) *)
Definition int_of_digits (s : string) : result Z :=
  match chars s with
  | [] => Raise ValueError
  | l => if forallb is_ascii_digit l then Ok (digits_value 0 l)
         else Raise ValueError
  end.

(** *** Services of the interpreter

    Conversions between text and values that the scripts call and do not
    define.  The model is parametric in them. *)
Class Interp := {
  (** [float(s)] on a string; [None] when it raises [ValueError] *)
  float_of_str : string -> option float;
  (** [int(s)] on a string; [None] when it raises [ValueError] *)
  int_of_str : string -> option Z;
  (** [repr] of a float and of a string *)
  repr_float : float -> string;
  repr_str : string -> string;
  (** [json.loads]; [None] when the text is not JSON *)
  json_loads : string -> option value;
  (** [json.dumps(v, sort_keys=True)] *)
  json_dumps_sorted : value -> string;
  (** [str(exc)] for an exception the interpreter raised *)
  exception_text : exception -> string
}.

(** *** Truth, lookup and conversions *)

(** Truth value of an object, as [if], [not], [and] and [or] test it. *)
Definition truthy (v : value) : bool :=
  match v with
  | VNone => false
  | VBool b => b
  | VInt z => negb (Z.eqb z 0)
  | VFloat f => negb (float_is_zero f)
  | VStr s => negb (String.eqb s "")
  | VList l => match l with [] => false | _ => true end
  | VDict d => match d with [] => false | _ => true end
  end.

(** [a or b] *)
Definition py_or (a b : value) : value := if truthy a then a else b.

Definition is_dict (v : value) : bool :=
  match v with VDict _ => true | _ => false end.
Definition is_list (v : value) : bool :=
  match v with VList _ => true | _ => false end.

(** [v == s] for a string literal [s]. *)
Definition eq_str (v : value) (s : string) : bool :=
  match v with VStr t => String.eqb t s | _ => false end.

Fixpoint lookup (k : key) (d : list (key * value)) : option value :=
  match d with
  | [] => None
  | (k', v) :: rest => if key_eqb k' k then Some v else lookup k rest
  end.

(** [d.get(name)] on a dict: [None] for a missing key. *)
Definition dict_get (name : string) (d : list (key * value)) : value :=
  match lookup (KStr name) d with Some v => v | None => VNone end.

(** [d.get(name, default)] on a dict. *)
Definition dict_get_or (name : string) (default : value)
  (d : list (key * value)) : value :=
  match lookup (KStr name) d with Some v => v | None => default end.

(** [name in d] *)
Definition dict_has (name : string) (d : list (key * value)) : bool :=
  match lookup (KStr name) d with Some _ => true | None => false end.

(** [d[k] = v]: the first item with an equal key is updated in place (its
    key object stays), otherwise the item is appended. *)
Fixpoint dict_set (k : key) (v : value) (d : list (key * value))
  : list (key * value) :=
  match d with
  | [] => [(k, v)]
  | (k', v') :: rest =>
      if key_eqb k' k then (k', v) :: rest else (k', v') :: dict_set k v rest
  end.

(** [d.setdefault(name, v)] *)
Definition dict_setdefault (name : string) (v : value)
  (d : list (key * value)) : list (key * value) :=
  if dict_has name d then d else dict_set (KStr name) v d.

(** [x.get(name)] on any object: only a dict has the method. *)
Definition py_get (name : string) (x : value) : result value :=
  match x with
  | VDict d => Ok (dict_get name d)
  | _ => Raise AttributeError
  end.

(** [x.get(name, default)] on any object. *)
Definition py_get_or (name : string) (default : value) (x : value)
  : result value :=
  match x with
  | VDict d => Ok (dict_get_or name default d)
  | _ => Raise AttributeError
  end.

Definition char_str (c : ascii) : value := VStr (String c EmptyString).

(** [len(x)] *)
Definition py_len (x : value) : result nat :=
  match x with
  | VStr s => Ok (String.length s)
  | VList l => Ok (List.length l)
  | VDict d => Ok (List.length d)
  | _ => Raise TypeError
  end.

(** The items [for y in x] visits: the elements of a list, the characters
    of a string, the keys of a dict. *)
Definition py_iter (x : value) : result (list value) :=
  match x with
  | VList l => Ok l
  | VStr s => Ok (map char_str (chars s))
  | VDict d => Ok (map (fun kv => key_value (fst kv)) d)
  | _ => Raise TypeError
  end.

(** Position [i] of a sequence of length [n], counted from the end when
    negative. *)
Definition seq_pos (n : nat) (i : Z) : option nat :=
  let j := (if Z.ltb i 0 then i + Z.of_nat n else i)%Z in
  if (Z.leb 0 j && Z.ltb j (Z.of_nat n))%bool then Some (Z.to_nat j) else None.

(** [x[i]] for an integer [i] *)
Definition py_item (x : value) (i : Z) : result value :=
  match x with
  | VList l =>
      match seq_pos (List.length l) i with
      | Some j => of_option IndexError (nth_error l j)
      | None => Raise IndexError
      end
  | VStr s =>
      match seq_pos (String.length s) i with
      | Some j => of_option IndexError (option_map char_str (nth_error (chars s) j))
      | None => Raise IndexError
      end
  | VDict d => of_option KeyError (lookup (KInt i) d)
  | _ => Raise TypeError
  end.

(** Number of items [x[:n]] keeps from a sequence of length [len]. *)
Definition slice_len (len : nat) (n : Z) : nat :=
  if Z.ltb n 0 then Z.to_nat (Z.of_nat len + n) else Nat.min len (Z.to_nat n).

(** [x[:n]]: defined on lists and strings.  A dict, like any other object,
    raises. *)
Definition py_slice_to (x : value) (n : Z) : result value :=
  match x with
  | VList l => Ok (VList (firstn (slice_len (List.length l) n) l))
  | VStr s => Ok (VStr (of_chars (firstn (slice_len (String.length s) n) (chars s))))
  | _ => Raise TypeError
  end.

Section WithInterp.
Context {I : Interp}.

Definition key_repr (k : key) : string :=
  match k with
  | KNone => "None"
  | KBool b => if b then "True" else "False"
  | KInt z => dec z
  | KFloat f => repr_float f
  | KStr s => repr_str s
  end.

(** [repr(v)] *)
Fixpoint py_repr (v : value) : string :=
  match v with
  | VNone => "None"
  | VBool b => if b then "True" else "False"
  | VInt z => dec z
  | VFloat f => repr_float f
  | VStr s => repr_str s
  | VList l => "[" +++ join ", " (map py_repr l) +++ "]"
  | VDict d =>
      "{" +++ join ", " (map (fun kv => match kv with
                                        | (k, x) => key_repr k +++ ": " +++ py_repr x
                                        end) d) +++ "}"
  end.

(** [str(v)], which is also what an f-string field renders. *)
Definition py_str (v : value) : string :=
  match v with
  | VStr s => s
  | _ => py_repr v
  end.

(** [float(v)] *)
Definition py_float (v : value) : result float :=
  match v with
  | VFloat f => Ok f
  | VInt z =>
      match float_of_Z z with
      | S754_infinity _ => Raise OverflowError
      | f => Ok f
      end
  | VBool b => Ok (if b then f1_0 else f0_0)
  | VStr s => of_option ValueError (float_of_str s)
  | VNone | VList _ | VDict _ => Raise TypeError
  end.

(** The integer part of a finite float, rounded toward zero. *)
Definition float_trunc (f : float) : result Z :=
  match f with
  | S754_zero _ => Ok 0%Z
  | S754_finite s m e =>
      let a := (if Z.leb 0 e then Z.pos m * 2 ^ e else Z.pos m / 2 ^ (- e))%Z in
      Ok (if s then (- a)%Z else a)
  | S754_infinity _ => Raise OverflowError
  | S754_nan => Raise ValueError
  end.

(** [int(v)] *)
Definition py_int (v : value) : result Z :=
  match v with
  | VInt z => Ok z
  | VBool b => Ok (if b then 1 else 0)%Z
  | VFloat f => float_trunc f
  | VStr s => of_option ValueError (int_of_str s)
  | VNone | VList _ | VDict _ => Raise TypeError
  end.

(** [str(exc)] *)
Definition exc_str (e : exception) : string :=
  match e with
  | RuntimeError msg => msg
  | External msg => msg
  | _ => exception_text e
  end.

End WithInterp.

End Py.

(** ** scripts/axiograph_llm_plugin_mock.py *)
Module LlmMock.
Import Py.

Definition newline : string := String "010"%char EmptyString.

(** What a handler hands back: its writes on standard output and the value
    it returns. *)
Definition reply := (list chunk * Z)%type.

(** [respond_ok(payload)] *)
Definition respond_ok (payload : value) : reply :=
  ([Dump payload; Text newline], 0%Z).

(** [respond_error(message)] *)
Definition respond_error (message : string) : reply :=
  ([Dump (VDict ["error" :-> VStr message]); Text newline], 0%Z).

Fixpoint strings_eqb (a b : list string) : bool :=
  match a, b with
  | [], [] => true
  | x :: a', y :: b' => String.eqb x y && strings_eqb a' b'
  | _, _ => false
  end.

(** [l[i]] for a list of strings, where the caller has checked the bound. *)
Definition tok (l : list string) (i : nat) : string := nth i l "".

(** [(v or "").strip()] *)
Definition strip_or_empty (v : value) : result string :=
  match py_or v (VStr "") with
  | VStr s => Ok (strip s)
  | _ => Raise AttributeError
  end.

(** [x[name]] for a string [name] *)
Definition py_item_str (x : value) (name : string) : result value :=
  match x with
  | VDict d => of_option KeyError (lookup (KStr name) d)
  | VList _ | VStr _ => Raise TypeError
  | _ => Raise TypeError
  end.

(** [build_query_payload(question)] *)
Definition build_query_payload (question : string) : result value :=
  let tokens := split question in
  let lower := map Py.lower tokens in
  if mem "follow" lower
     || (strings_eqb (firstn 1 lower) ["from"] && Nat.leb 2 (List.length tokens))
  then
    let start :=
      if strings_eqb (firstn 1 lower) ["from"] && Nat.leb 2 (List.length tokens)
         && isdigit (tok tokens 1)
      then tok tokens 1 else "0" in
    let rels := filter (startswith "rel_") tokens in
    let path := match rels with [] => "rel_0/rel_1" | _ => join "/" rels end in
    let axql := "select ?y where " +++ start +++ " -" +++ path +++ "-> ?y limit 20" in
    left <- int_of_digits start ;;
    let query_ir_v1 :=
      VDict [ "version" :-> VInt 1;
              "select" :-> VList [VStr "?y"];
              "where" :-> VList [VDict [ "kind" :-> VStr "edge";
                                         "left" :-> VInt left;
                                         "path" :-> VStr path;
                                         "right" :-> VStr "?y" ]];
              "limit" :-> VInt 20 ] in
    Ok (VDict ["query_ir_v1" :-> query_ir_v1; "axql" :-> VStr axql])
  else if strings_eqb (firstn 1 lower) ["find"] && Nat.leb 2 (List.length tokens)
  then
    let type_name := tok tokens 1 in
    let name :=
      if mem "named" lower
      then match index_of "named" lower with
           | Some i => if Nat.ltb (i + 1) (List.length tokens)
                       then Some (tok tokens (i + 1)) else None
           | None => None
           end
      else None in
    let typed :=
      negb (mem (Py.lower type_name) ["thing"; "things"; "entity"; "entities"]) in
    let atoms1 := if typed then ["?x is " +++ type_name] else [] in
    let ir_atoms1 :=
      if typed
      then [VDict ["kind" :-> VStr "type"; "term" :-> VStr "?x";
                   "type" :-> VStr type_name]]
      else [] in
    let atoms :=
      match name with
      | Some n => atoms1 ++ ["?x.name = " +++ dquote +++ n +++ dquote]
      | None => atoms1
      end in
    let ir_atoms2 :=
      match name with
      | Some n => ir_atoms1 ++ [VDict ["kind" :-> VStr "attr_eq"; "term" :-> VStr "?x";
                                       "key" :-> VStr "name"; "value" :-> VStr n]]
      | None => ir_atoms1
      end in
    let where_ := match atoms with [] => "?x is Node" | _ => join ", " atoms end in
    let axql := "select ?x where " +++ where_ +++ " limit 20" in
    let ir_atoms :=
      match ir_atoms2 with
      | [] => [VDict ["kind" :-> VStr "type"; "term" :-> VStr "?x";
                      "type" :-> VStr "Node"]]
      | _ => ir_atoms2
      end in
    let query_ir_v1 :=
      VDict [ "version" :-> VInt 1; "select" :-> VList [VStr "?x"];
              "where" :-> VList ir_atoms; "limit" :-> VInt 20 ] in
    Ok (VDict ["query_ir_v1" :-> query_ir_v1; "axql" :-> VStr axql])
  else
    let query_ir_v1 :=
      VDict [ "version" :-> VInt 1;
              "select" :-> VList [VStr "?x"];
              "where" :-> VList [VDict ["kind" :-> VStr "type"; "term" :-> VStr "?x";
                                        "type" :-> VStr "Node"]];
              "limit" :-> VInt 20 ] in
    Ok (VDict ["query_ir_v1" :-> query_ir_v1;
               "axql" :-> VStr "select ?x where ?x is Node limit 20"]).

(** [respond_to_query(question)]: the script spells the templates out a
    second time here, and so does the model. *)
Definition respond_to_query (question : string) : result reply :=
  let tokens := split question in
  let lower := map Py.lower tokens in
  if mem "follow" lower
     || (strings_eqb (firstn 1 lower) ["from"] && Nat.leb 2 (List.length tokens))
  then
    let start :=
      if strings_eqb (firstn 1 lower) ["from"] && Nat.leb 2 (List.length tokens)
         && isdigit (tok tokens 1)
      then tok tokens 1 else "0" in
    let rels := filter (startswith "rel_") tokens in
    let path := match rels with [] => "rel_0/rel_1" | _ => join "/" rels end in
    let axql := "select ?y where " +++ start +++ " -" +++ path +++ "-> ?y limit 20" in
    left <- int_of_digits start ;;
    let query_ir_v1 :=
      VDict [ "version" :-> VInt 1;
              "select" :-> VList [VStr "?y"];
              "where" :-> VList [VDict [ "kind" :-> VStr "edge";
                                         "left" :-> VInt left;
                                         "path" :-> VStr path;
                                         "right" :-> VStr "?y" ]];
              "limit" :-> VInt 20 ] in
    Ok (respond_ok (VDict ["query_ir_v1" :-> query_ir_v1; "axql" :-> VStr axql]))
  else if strings_eqb (firstn 1 lower) ["find"] && Nat.leb 2 (List.length tokens)
  then
    let type_name := tok tokens 1 in
    let name :=
      if mem "named" lower
      then match index_of "named" lower with
           | Some i => if Nat.ltb (i + 1) (List.length tokens)
                       then Some (tok tokens (i + 1)) else None
           | None => None
           end
      else None in
    let typed :=
      negb (mem (Py.lower type_name) ["thing"; "things"; "entity"; "entities"]) in
    let atoms1 := if typed then ["?x is " +++ type_name] else [] in
    let ir_atoms1 :=
      if typed
      then [VDict ["kind" :-> VStr "type"; "term" :-> VStr "?x";
                   "type" :-> VStr type_name]]
      else [] in
    let atoms :=
      match name with
      | Some n => atoms1 ++ ["?x.name = " +++ dquote +++ n +++ dquote]
      | None => atoms1
      end in
    let ir_atoms2 :=
      match name with
      | Some n => ir_atoms1 ++ [VDict ["kind" :-> VStr "attr_eq"; "term" :-> VStr "?x";
                                       "key" :-> VStr "name"; "value" :-> VStr n]]
      | None => ir_atoms1
      end in
    let where_ := match atoms with [] => "?x is Node" | _ => join ", " atoms end in
    let axql := "select ?x where " +++ where_ +++ " limit 20" in
    let ir_atoms :=
      match ir_atoms2 with
      | [] => [VDict ["kind" :-> VStr "type"; "term" :-> VStr "?x";
                      "type" :-> VStr "Node"]]
      | _ => ir_atoms2
      end in
    let query_ir_v1 :=
      VDict [ "version" :-> VInt 1; "select" :-> VList [VStr "?x"];
              "where" :-> VList ir_atoms; "limit" :-> VInt 20 ] in
    Ok (respond_ok (VDict ["query_ir_v1" :-> query_ir_v1; "axql" :-> VStr axql]))
  else
    let query_ir_v1 :=
      VDict [ "version" :-> VInt 1;
              "select" :-> VList [VStr "?x"];
              "where" :-> VList [VDict ["kind" :-> VStr "type"; "term" :-> VStr "?x";
                                        "type" :-> VStr "Node"]];
              "limit" :-> VInt 20 ] in
    Ok (respond_ok (VDict ["query_ir_v1" :-> query_ir_v1;
                           "axql" :-> VStr "select ?x where ?x is Node limit 20"])).

Section Handlers.
Context {I : Interp}.

(** One pass of the loop over [first.items()], which [respond_answer] and
    [respond_tool_loop_step] both contain: the text for one binding, when its
    value is a dict with an [id]. *)
Definition binding_part (var : key) (v : value) : list string :=
  match v with
  | VDict d =>
      if dict_has "id" d then
        let name := dict_get "name" d in
        let et := dict_get "entity_type" d in
        let id := dict_get "id" d in
        if truthy name
        then [py_str (key_value var) +++ "=" +++ py_str name +++ " (" +++ py_str et
              +++ ", id=" +++ py_str id +++ ")"]
        else [py_str (key_value var) +++ "=" +++ py_str et +++ " (id=" +++ py_str id +++ ")"]
      else []
  | _ => []
  end.

(** The list [parts] after the loop over the first row. *)
Definition binding_parts (first : list (key * value)) : list string :=
  flat_map (fun kv => binding_part (fst kv) (snd kv)) first.

(** [msg], extended with the first row's bindings when there are any. *)
Definition with_first_row (msg : string) (parts : list string) : string :=
  match parts with
  | [] => msg
  | _ => msg +++ " First row: " +++ join ", " parts
  end.

(** [respond_answer(task)] *)
Definition respond_answer (task : list (key * value)) : result reply :=
  let results := py_or (dict_get "results" task) (VDict []) in
  r <- py_get "rows" results ;;
  let rows := py_or r (VList []) in
  n <- py_len rows ;;
  let msg := "Found " +++ dec_nat n +++ " result rows." in
  if truthy rows then
    first <- py_item rows 0 ;;
    match first with
    | VDict items =>
        Ok (respond_ok (VDict ["answer" :-> VStr (with_first_row msg (binding_parts items))]))
    | _ => Raise AttributeError
    end
  else Ok (respond_ok (VDict ["answer" :-> VStr msg])).

Definition mock_notes : value := VList [VStr "backend=mock_plugin (deterministic)"].

(** [respond_tool_loop_step(task)] *)
Definition respond_tool_loop_step (task : list (key * value)) : result reply :=
  question <- strip_or_empty (dict_get "question" task) ;;
  let transcript := py_or (dict_get "transcript" task) (VList []) in
  if negb (truthy transcript) then
    q_payload <- build_query_payload question ;;
    ir <- py_item_str q_payload "query_ir_v1" ;;
    let tool_call :=
      VDict [ "name" :-> VStr "axql_run";
              "args" :-> VDict ["query_ir_v1" :-> ir; "limit" :-> VInt 25] ] in
    Ok (respond_ok (VDict ["tool_call" :-> tool_call]))
  else
    last <- py_item transcript (-1) ;;
    let done :=
      Ok (respond_ok
            (VDict ["final_answer" :->
                      VDict [ "answer" :-> VStr "Done.";
                              "citations" :-> VList [];
                              "queries" :-> VList [];
                              "notes" :-> mock_notes ]])) in
    match last with
    | VDict l =>
        if eq_str (dict_get "tool" l) "axql_run" then
          match py_or (dict_get "result" l) (VDict []) with
          | VDict result =>
              let query_text := py_or (dict_get "query" result) (VStr "") in
              let results := py_or (dict_get "results" result) (VDict []) in
              r <- py_get "rows" results ;;
              let rows := py_or r (VList []) in
              n <- py_len rows ;;
              let msg := "Found " +++ dec_nat n +++ " result rows." in
              msg' <- (if truthy rows then
                         first <- py_item rows 0 ;;
                         match first with
                         | VDict items => Ok (with_first_row msg (binding_parts items))
                         | _ => Ok msg
                         end
                       else Ok msg) ;;
              let final_answer :=
                VDict [ "answer" :-> VStr msg';
                        "citations" :-> VList [];
                        "queries" :-> VList (if truthy query_text then [query_text] else []);
                        "notes" :-> mock_notes ] in
              Ok (respond_ok (VDict ["final_answer" :-> final_answer]))
          | _ => done
          end
        else done
    | _ => done
    end.

(** The body of the loop of [respond_augment_proposals]: the updates one
    proposal adds to [schema_hint_updates]. *)
Definition hint_updates (p : value) : result (list value) :=
  match p with
  | VDict d =>
      let pid := py_or (dict_get "proposal_id" d) (VStr "") in
      let md := py_or (dict_get "metadata" d) (VDict []) in
      let meta_domain :=
        match md with VDict m => dict_get "domain" m | _ => VNone end in
      let attrs := py_or (dict_get "attributes" d) (VDict []) in
      let attr_domain :=
        match attrs with VDict a => dict_get "domain" a | _ => VNone end in
      match py_or (py_or meta_domain attr_domain) (VStr "") with
      | VStr s =>
          let domain := Py.lower (strip s) in
          if String.eqb domain "machining" && truthy pid
          then Ok [VDict [ "proposal_id" :-> pid;
                           "schema_hint" :-> VStr "machinist_learning";
                           "public_rationale" :->
                             VStr "mock plugin: domain=machining → machinist_learning" ]]
          else Ok []
      | _ => Raise AttributeError
      end
  | _ => Ok []
  end.

(** A loop that appends to one list: the pieces of each pass, in order. *)
Fixpoint collect {A B} (f : A -> result (list B)) (l : list A) : result (list B) :=
  match l with
  | [] => Ok []
  | a :: rest => bs <- f a ;; more <- collect f rest ;; Ok (bs ++ more)
  end.

Definition added_proposals : value :=
  VList [VDict [ "kind" :-> VStr "Entity";
                 "proposal_id" :-> VStr "concept::mock::0";
                 "confidence" :-> VFloat f0_6;
                 "evidence" :-> VList [];
                 "public_rationale" :-> VStr "mock plugin: added a sample Concept entity";
                 "metadata" :-> VDict ["derived_from" :-> VStr "axiograph_llm_plugin_mock"];
                 "schema_hint" :-> VNone;
                 "entity_id" :-> VStr "concept::mock::0";
                 "entity_type" :-> VStr "Concept";
                 "name" :-> VStr "MockConcept";
                 "attributes" :-> VDict ["note" :-> VStr "deterministic mock"];
                 "description" :-> VStr "A placeholder concept added by the mock plugin." ]].

Definition augment_notes : value :=
  VList [VStr "mock plugin: this is deterministic; replace with a real local model runner for semantic labeling"].

(** [respond_augment_proposals(task)] *)
Definition respond_augment_proposals (task : list (key * value)) : result reply :=
  let proposals_file := py_or (dict_get "proposals" task) (VDict []) in
  ps <- py_get "proposals" proposals_file ;;
  let proposals := py_or ps (VList []) in
  items <- py_iter proposals ;;
  schema_hint_updates <- collect hint_updates items ;;
  Ok (respond_ok (VDict [ "schema_hint_updates" :-> VList schema_hint_updates;
                          "added_proposals" :-> added_proposals;
                          "notes" :-> augment_notes ])).

(** [main()], from the request that [json.load] read. *)
Definition main (req : value) : result reply :=
  protocol <- py_get "protocol" req ;;
  if negb (eq_str protocol "axiograph_llm_plugin_v2"
           || eq_str protocol "axiograph_llm_plugin_v3")
  then Ok (respond_error "unsupported protocol")
  else
    t <- py_get "task" req ;;
    match py_or t (VDict []) with
    | VDict task =>
        let kind := dict_get "kind" task in
        if eq_str kind "to_query" then
          question <- strip_or_empty (dict_get "question" task) ;;
          respond_to_query question
        else if eq_str kind "answer" then respond_answer task
        else if eq_str kind "augment_proposals" then respond_augment_proposals task
        else if eq_str kind "tool_loop_step" then respond_tool_loop_step task
        else Ok (respond_error ("unknown task kind: " +++ py_repr kind))
    | _ => Raise AttributeError
    end.

(** The script run as a program, [raise SystemExit(main())]: the exit status
    is what [main] returns; an exception nobody catches ends the run with
    status 1 and nothing on standard output, since every handler writes as
    its last step. *)
Definition run (stdin : stdin_text) : process :=
  match (req <- load_stdin stdin ;; main req) with
  | Ok (out, status) => {| stdout := out; exit_code := status |}
  | Raise _ => {| stdout := []; exit_code := 1 |}
  end.

End Handlers.

End LlmMock.

(** ** scripts/axiograph_world_model_plugin_real.py *)
Module WmReal.
Import Py.

(** What a run of the script reads from outside itself.  The three backend
    callers are collaborators (HTTP clients): each takes the prompt and the
    request summary and returns the model's text, or raises. *)
Record world := {
  (** [sys.stdin.read()] *)
  stdin : stdin_text;
  (** [os.environ] *)
  environ : string -> option string;
  (** [int(time.time())]; successive readings within one run are taken
      to be equal *)
  now : Z;
  _call_openai : string -> value -> result value;
  _call_anthropic : string -> value -> result value;
  _call_ollama : string -> value -> result value
}.

Definition newline : string := String "010"%char EmptyString.

(** A word between double quotes. *)
Definition q (s : string) : string := dquote +++ s +++ dquote.

(** The lines of the prompt of [_summarize_request]. *)
Definition prompt_lines : list string :=
  [
    "You are a world-model assistant for Axiograph.";
    "Return ONLY JSON (no markdown) that conforms to:";
    "ProposalsFileV1 = {";
    "  " +++ q "version" +++ ": 1,";
    "  " +++ q "generated_at" +++ ": " +++ q "<unix-secs as string>" +++ ",";
    "  " +++ q "source" +++ ": {" +++ q "source_type" +++ ": " +++ q "world_model" +++ ", " +++ q "locator" +++ ": " +++ q "<trace_id>" +++ "},";
    "  " +++ q "schema_hint" +++ ": null,";
    "  " +++ q "proposals" +++ ": [";
    "    ProposalV1 (entity or relation)";
    "  ]";
    "}";
    "ProposalV1 entity:";
    "{ " +++ q "kind" +++ ":" +++ q "Entity" +++ ", " +++ q "proposal_id" +++ ":" +++ q "..." +++ ", " +++ q "confidence" +++ ":0.0-1.0, " +++ q "evidence" +++ ":[], " +++ q "public_rationale" +++ ":" +++ q "..." +++ ", " +++ q "metadata" +++ ":{}, " +++ q "schema_hint" +++ ":null,";
    "  " +++ q "entity_id" +++ ":" +++ q "..." +++ ", " +++ q "entity_type" +++ ":" +++ q "..." +++ ", " +++ q "name" +++ ":" +++ q "..." +++ ", " +++ q "attributes" +++ ":{}, " +++ q "description" +++ ":null }";
    "ProposalV1 relation:";
    "{ " +++ q "kind" +++ ":" +++ q "Relation" +++ ", " +++ q "proposal_id" +++ ":" +++ q "..." +++ ", " +++ q "confidence" +++ ":0.0-1.0, " +++ q "evidence" +++ ":[], " +++ q "public_rationale" +++ ":" +++ q "..." +++ ", " +++ q "metadata" +++ ":{}, " +++ q "schema_hint" +++ ":null,";
    "  " +++ q "relation_id" +++ ":" +++ q "..." +++ ", " +++ q "rel_type" +++ ":" +++ q "..." +++ ", " +++ q "source" +++ ":" +++ q "..." +++ ", " +++ q "target" +++ ":" +++ q "..." +++ ", " +++ q "attributes" +++ ":{} }";
    "Rules:";
    "- Propose at most max_new_proposals items.";
    "- Use stable ids (e.g. wm::<trace_id>::n).";
    "- Keep confidence between 0.55 and 0.9.";
    "- Use only info grounded in export_summary + goals."
  ].

Definition prompt_text : string :=
  String.concat "" (map (fun l => l +++ newline) prompt_lines).

Fixpoint drop_ticks (l : list ascii) : list ascii :=
  match l with
  | c :: rest => if Ascii.eqb c "`"%char then drop_ticks rest else l
  | [] => []
  end.

(** [s.strip("`")] *)
Definition strip_ticks (s : string) : string :=
  of_chars (rev (drop_ticks (rev (drop_ticks (chars s))))).

(** [s[s.find("{"):]], when [s] has an opening brace. *)
Fixpoint from_brace (l : list ascii) : option (list ascii) :=
  match l with
  | [] => None
  | c :: rest => if Ascii.eqb c "{"%char then Some l else from_brace rest
  end.

(** The brace-matching loop of [_extract_json]: [taken] holds the characters
    passed so far, reversed; the result is [s[start:end]]. *)
Fixpoint balanced_prefix (depth : Z) (taken l : list ascii) : option (list ascii) :=
  match l with
  | [] => None
  | c :: rest =>
      if Ascii.eqb c "{"%char then balanced_prefix (depth + 1) (c :: taken) rest
      else if Ascii.eqb c "}"%char then
        if Z.eqb (depth - 1) 0 then Some (rev (c :: taken))
        else balanced_prefix (depth - 1) (c :: taken) rest
      else balanced_prefix depth (c :: taken) rest
  end.

Section Script.
Context {I : Interp}.

(** [_read_stdin_json()] *)
Definition _read_stdin_json (raw : stdin_text) : result value :=
  match raw with
  | Blank => Raise (RuntimeError "expected JSON request on stdin")
  | _ => load_stdin raw
  end.

(** [_extract_json(text)] *)
Definition _extract_json (text : value) : result value :=
  match text with
  | VStr t =>
      let s0 := strip t in
      let s := if startswith "```" s0 then strip_ticks s0 else s0 in
      match from_brace (chars s) with
      | None => Raise (RuntimeError "model output did not include JSON object")
      | Some tail =>
          match balanced_prefix 0 [] tail with
          | None => Raise (RuntimeError "model output JSON object was not balanced")
          | Some obj => of_option JSONDecodeError (json_loads (of_chars obj))
          end
      end
  | _ => Raise AttributeError
  end.

(** One pass of the loop over [items[:3]] in [_summarize_request]. *)
Definition sample_entry (it : value) : result value :=
  schema <- py_get "schema" it ;;
  instance <- py_get "instance" it ;;
  relation <- py_get "relation" it ;;
  f <- py_get_or "fields" (VList []) it ;;
  fields <- py_slice_to f 4 ;;
  m <- py_get_or "mask_fields" (VList []) it ;;
  mask_fields <- py_slice_to m 4 ;;
  Ok (VDict [ "schema" :-> schema; "instance" :-> instance; "relation" :-> relation;
              "fields" :-> fields; "mask_fields" :-> mask_fields ]).

(** [_summarize_request(req)] *)
Definition _summarize_request (req : value) : result (string * value) :=
  trace_id <- py_get_or "trace_id" (VStr "wm::unknown") req ;;
  o <- py_get_or "options" (VDict []) req ;;
  let opts := py_or o (VDict []) in
  i <- py_get_or "input" (VDict []) req ;;
  let input_obj := py_or i (VDict []) in
  export <- py_get "export" input_obj ;;
  export_summary <-
    match export with
    | VDict ex =>
        let items := py_or (dict_get_or "items" (VList []) ex) (VList []) in
        head <- py_slice_to items 3 ;;
        its <- py_iter head ;;
        sample <- mapM sample_entry its ;;
        n <- py_len items ;;
        Ok (VDict [ "module_name" :-> dict_get "module_name" ex;
                    "axi_digest_v1" :-> dict_get "axi_digest_v1" ex;
                    "items" :-> VInt (Z.of_nat n);
                    "sample" :-> VList sample ])
    | _ => Ok VNone
    end ;;
  generated_at <- py_get "generated_at_unix_secs" req ;;
  goals <- py_get_or "goals" (VList []) opts ;;
  objectives <- py_get_or "objectives" (VList []) opts ;;
  task_costs <- py_get_or "task_costs" (VList []) opts ;;
  max_new_proposals <- py_get_or "max_new_proposals" (VInt 0) opts ;;
  notes <- py_get_or "notes" (VList []) opts ;;
  axi_digest_v1 <- py_get "axi_digest_v1" input_obj ;;
  let summary :=
    VDict [ "trace_id" :-> trace_id;
            "generated_at" :-> generated_at;
            "goals" :-> goals;
            "objectives" :-> objectives;
            "task_costs" :-> task_costs;
            "max_new_proposals" :-> max_new_proposals;
            "notes" :-> notes;
            "axi_digest_v1" :-> axi_digest_v1;
            "export_summary" :-> export_summary ] in
  Ok (prompt_text, summary).

(** The body of the loop of [_normalize_proposals] for a record [p] that is
    a dict, at position [idx] of the input. *)
Definition normalize_record (trace_id : value) (idx : nat) (p : list (key * value))
  : result value :=
  let kind := dict_get "kind" p in
  let entity := String.eqb (lower (py_str kind)) "entity" in
  let base_id := "wm::" +++ py_str trace_id +++ "::" +++ dec_nat idx in
  confidence <- py_float (dict_get_or "confidence" (VFloat f0_7) p) ;;
  let meta :=
    [ "proposal_id" :-> py_or (dict_get "proposal_id" p) (VStr base_id);
      "confidence" :-> VFloat confidence;
      "evidence" :-> (if is_list (dict_get "evidence" p) then dict_get "evidence" p
                      else VList []);
      "public_rationale" :->
        py_or (dict_get "public_rationale" p) (VStr "world model proposal");
      "metadata" :-> (if is_dict (dict_get "metadata" p) then dict_get "metadata" p
                      else VDict []);
      "schema_hint" :-> dict_get "schema_hint" p ] in
  if entity then
    Ok (VDict (meta ++
          [ "kind" :-> VStr "Entity";
            "entity_id" :-> py_or (dict_get "entity_id" p) (VStr (base_id +++ ":entity"));
            "entity_type" :-> py_or (dict_get "entity_type" p) (VStr "Entity");
            "name" :-> py_or (py_or (dict_get "name" p) (dict_get "entity_id" p))
                             (VStr ("Entity " +++ dec_nat idx));
            "attributes" :-> (if is_dict (dict_get "attributes" p)
                              then dict_get "attributes" p else VDict []);
            "description" :-> dict_get "description" p ]))
  else
    Ok (VDict (meta ++
          [ "kind" :-> VStr "Relation";
            "relation_id" :-> py_or (dict_get "relation_id" p) (VStr (base_id +++ ":rel"));
            "rel_type" :-> py_or (dict_get "rel_type" p) (VStr "related_to");
            "source" :-> py_or (dict_get "source" p) (VStr "");
            "target" :-> py_or (dict_get "target" p) (VStr "");
            "attributes" :-> (if is_dict (dict_get "attributes" p)
                              then dict_get "attributes" p else VDict []) ])).

(** The loop [for idx, p in enumerate(proposals)], from position [idx] on:
    the list [fixed].  A record that is not a dict is passed over, and the
    position still advances. *)
Fixpoint normalize_loop (trace_id : value) (idx : nat) (proposals : list value)
  : result (list value) :=
  match proposals with
  | [] => Ok []
  | VDict p :: rest =>
      r <- normalize_record trace_id idx p ;;
      rs <- normalize_loop trace_id (S idx) rest ;;
      Ok (r :: rs)
  | _ :: rest => normalize_loop trace_id (S idx) rest
  end.

(** [_normalize_proposals(trace_id, data)]; [clock] is [int(time.time())]. *)
Definition _normalize_proposals (clock : Z) (trace_id : value) (data : value)
  : result value :=
  let out0 := match data with VDict d => d | _ => [] end in
  let out1 := dict_setdefault "version" (VInt 1) out0 in
  let out2 := dict_setdefault "generated_at" (VStr (dec clock)) out1 in
  let out3 :=
    dict_setdefault "source"
      (VDict ["source_type" :-> VStr "world_model"; "locator" :-> trace_id]) out2 in
  let out4 := dict_setdefault "schema_hint" VNone out3 in
  let proposals :=
    match dict_get_or "proposals" (VList []) out4 with
    | VList l => l
    | _ => []
    end in
  fixed <- normalize_loop trace_id 0 proposals ;;
  Ok (VDict (dict_set (KStr "proposals") (VList fixed) out4)).

Definition env_or_empty (w : world) (name : string) : string :=
  match environ w name with Some s => s | None => "" end.

(** Truth of [os.environ.get(name)] *)
Definition env_set (w : world) (name : string) : bool :=
  negb (String.eqb (env_or_empty w name) "").

(** [main()]: the writes on standard output. *)
Definition main (w : world) : result (list chunk) :=
  req <- _read_stdin_json (stdin w) ;;
  '(prompt, summary) <- _summarize_request req ;;
  trace_id <- py_get_or "trace_id" (VStr "wm::unknown") req ;;
  let backend0 := lower (strip (env_or_empty w "WORLD_MODEL_BACKEND")) in
  backend <-
    (if String.eqb backend0 "" then
       if env_set w "OPENAI_API_KEY" then Ok "openai"
       else if env_set w "ANTHROPIC_API_KEY" then Ok "anthropic"
       else if env_set w "OLLAMA_HOST" || env_set w "OLLAMA_MODEL" then Ok "ollama"
       else Raise (RuntimeError
                     ("WORLD_MODEL_BACKEND not set and no API keys found. "
                      +++ "Set WORLD_MODEL_BACKEND=openai|anthropic|ollama and configure keys."))
     else Ok backend0) ;;
  raw <-
    (if String.eqb backend "openai" then _call_openai w prompt summary
     else if String.eqb backend "anthropic" then _call_anthropic w prompt summary
     else if String.eqb backend "ollama" then _call_ollama w prompt summary
     else Raise (RuntimeError ("unsupported WORLD_MODEL_BACKEND=" +++ backend))) ;;
  parsed <- _extract_json raw ;;
  proposals <- _normalize_proposals (now w) trace_id parsed ;;
  protocol <- py_get_or "protocol" (VStr "axiograph_world_model_v1") req ;;
  let out :=
    VDict [ "protocol" :-> protocol;
            "trace_id" :-> trace_id;
            "generated_at_unix_secs" :-> VInt (now w);
            "proposals" :-> proposals;
            "notes" :-> VList [VStr ("backend=" +++ backend)];
            "error" :-> VNone ] in
  Ok [Dump out].

(** The envelope the [except] clause writes. *)
Definition error_envelope (clock : Z) (exc : exception) : value :=
  VDict [ "protocol" :-> VStr "axiograph_world_model_v1";
          "trace_id" :-> VStr "wm::error";
          "generated_at_unix_secs" :-> VInt clock;
          "proposals" :->
            VDict [ "version" :-> VInt 1;
                    "generated_at" :-> VStr (dec clock);
                    "source" :-> VDict [ "source_type" :-> VStr "world_model";
                                         "locator" :-> VStr "error" ];
                    "schema_hint" :-> VNone;
                    "proposals" :-> VList [] ];
          "notes" :-> VList [];
          "error" :-> VStr (exc_str exc) ].

(** The script run as a program: [main()] under [try], with the [except
    Exception] clause that writes the error envelope and calls
    [sys.exit(2)].  [main] writes as its last step, so a run that raises has
    written nothing before the envelope. *)
Definition run (w : world) : process :=
  match main w with
  | Ok out => {| stdout := out; exit_code := 0 |}
  | Raise exc => {| stdout := [Dump (error_envelope (now w) exc)]; exit_code := 2 |}
  end.

End Script.

End WmReal.

(** ** scripts/axiograph_world_model_plugin_onnx.py *)
Module WmOnnx.
Import Py.

(** A loaded ONNX session, seen through what the loop does with it: from
    the seed, [session.run(...)[0]] is [None] ([Ok None]) or an array whose
    first element converts to the float [f] ([Ok (Some f)]), or some step of
    the exchange raises. *)
Record session := { infer : Z -> result (option float) }.

Record world := {
  (** [sys.stdin.read()] *)
  stdin : stdin_text;
  (** [os.environ] *)
  environ : string -> option string;
  (** [int(time.time())]; successive readings within one run are taken
      to be equal *)
  now : Z;
  (** [_load_onnx(model_path)] *)
  _load_onnx : string -> result session
}.

(** The UTF-8 bytes of a character. *)
Definition utf8 (c : ascii) : list Z :=
  let n := Z.of_nat (code c) in
  if Z.ltb n 128 then [n]
  else [Z.lor 192 (Z.shiftr n 6); Z.lor 128 (Z.land n 63)].

(** [_stable_hash(text)]: 32-bit FNV-1a over the UTF-8 bytes. *)
Definition _stable_hash (text : string) : Z :=
  fold_left (fun h b => Z.land (Z.lxor h b * 16777619) 4294967295)
            (flat_map utf8 (chars text)) 2166136261%Z.

(** [min(a, b)] and [max(a, b)] on floats: the first argument stays unless
    the second is strictly smaller, respectively greater. *)
Definition py_min (a b : float) : float := if float_ltb b a then b else a.
Definition py_max (a b : float) : float := if float_ltb a b then b else a.

(** [max(0.55, min(0.95, score))] *)
Definition clamp_score (score : float) : float := py_max f0_55 (py_min f0_95 score).

(** Unpacking [(k, v) = x]: [x] must be an iterable of exactly two items. *)
Definition unpack_pair (x : value) : result (value * value) :=
  its <- py_iter x ;;
  match its with
  | [k; v] => Ok (k, v)
  | _ => Raise ValueError
  end.

(** [{k: v for (k, v) in fields}], from the items [fields] yields. *)
Fixpoint dict_of_pairs (acc : list (key * value)) (items : list value)
  : result (list (key * value)) :=
  match items with
  | [] => Ok acc
  | x :: rest =>
      '(k, v) <- unpack_pair x ;;
      k' <- of_option TypeError (to_key k) ;;
      dict_of_pairs (dict_set k' v acc) rest
  end.

Section Script.
Context {I : Interp}.

(** [_read_stdin_json()] *)
Definition _read_stdin_json (raw : stdin_text) : result value :=
  match raw with
  | Blank => Raise (RuntimeError "expected JSON request on stdin")
  | _ => load_stdin raw
  end.

(** The body of the loop of [_normalize_proposals]; every record must have a
    [get] method. *)
Definition normalize_record (trace_id : value) (idx : nat) (p : value)
  : result value :=
  k <- py_get_or "kind" (VStr "Relation") p ;;
  match p with
  | VDict p =>
      let entity := String.eqb (lower (py_str k)) "entity" in
      let base_id := "wm::" +++ py_str trace_id +++ "::" +++ dec_nat idx in
      confidence <- py_float (dict_get_or "confidence" (VFloat f0_7) p) ;;
      let meta :=
        [ "proposal_id" :-> py_or (dict_get "proposal_id" p) (VStr base_id);
          "confidence" :-> VFloat confidence;
          "evidence" :-> (if is_list (dict_get "evidence" p) then dict_get "evidence" p
                          else VList []);
          "public_rationale" :->
            py_or (dict_get "public_rationale" p) (VStr "onnx world model proposal");
          "metadata" :-> (if is_dict (dict_get "metadata" p) then dict_get "metadata" p
                          else VDict []);
          "schema_hint" :-> dict_get "schema_hint" p ] in
      if entity then
        Ok (VDict (meta ++
              [ "kind" :-> VStr "Entity";
                "entity_id" :-> py_or (dict_get "entity_id" p) (VStr (base_id +++ ":entity"));
                "entity_type" :-> py_or (dict_get "entity_type" p) (VStr "Entity");
                "name" :-> py_or (py_or (dict_get "name" p) (dict_get "entity_id" p))
                                 (VStr ("Entity " +++ dec_nat idx));
                "attributes" :-> (if is_dict (dict_get "attributes" p)
                                  then dict_get "attributes" p else VDict []);
                "description" :-> dict_get "description" p ]))
      else
        Ok (VDict (meta ++
              [ "kind" :-> VStr "Relation";
                "relation_id" :-> py_or (dict_get "relation_id" p) (VStr (base_id +++ ":rel"));
                "rel_type" :-> py_or (dict_get "rel_type" p) (VStr "related_to");
                "source" :-> py_or (dict_get "source" p) (VStr "");
                "target" :-> py_or (dict_get "target" p) (VStr "");
                "attributes" :-> (if is_dict (dict_get "attributes" p)
                                  then dict_get "attributes" p else VDict []) ]))
  | _ => Raise AttributeError
  end.

(** The loop [for idx, p in enumerate(proposals)], from position [idx] on. *)
Fixpoint normalize_loop (trace_id : value) (idx : nat) (proposals : list value)
  : result (list value) :=
  match proposals with
  | [] => Ok []
  | p :: rest =>
      r <- normalize_record trace_id idx p ;;
      rs <- normalize_loop trace_id (S idx) rest ;;
      Ok (r :: rs)
  end.

(** [_normalize_proposals(trace_id, proposals)] *)
Definition _normalize_proposals (clock : Z) (trace_id : value) (proposals : list value)
  : result value :=
  fixed <- normalize_loop trace_id 0 proposals ;;
  Ok (VDict [ "version" :-> VInt 1;
              "generated_at" :-> VStr (dec clock);
              "source" :-> VDict ["source_type" :-> VStr "world_model";
                                  "locator" :-> trace_id];
              "schema_hint" :-> VNone;
              "proposals" :-> VList fixed ]).

(** The body of the loop of [main]: the proposal built for the item [it] at
    position [idx]. *)
Definition item_proposal (s : session) (model_path : string) (idx : nat) (it : value)
  : result value :=
  r <- py_get "relation" it ;;
  let rel := py_or r (VStr "related_to") in
  f <- py_get_or "fields" (VList []) it ;;
  let fields := py_or f (VList []) in
  field_map <- match fields with
               | VList l => dict_of_pairs [] l
               | _ => Ok []
               end ;;
  m <- py_get_or "mask_fields" (VList []) it ;;
  let mask := py_or m (VList []) in
  let text :=
    json_dumps_sorted
      (VDict ["relation" :-> rel; "fields" :-> fields; "mask" :-> mask]) in
  let seed := _stable_hash text in
  res <- infer s seed ;;
  let score := match res with Some x => x | None => f0_7 end in
  let conf := clamp_score score in
  let rel_id := "rel::" +++ py_str rel +++ "::" +++ dec_nat idx in
  schema <- py_get "schema" it ;;
  source <- (if truthy fields
             then first <- py_item fields 0 ;; py_item first 1
             else Ok (VStr "")) ;;
  n <- py_len fields ;;
  target <- (if Nat.ltb 1 n
             then second <- py_item fields 1 ;; py_item second 1
             else Ok (VStr "")) ;;
  Ok (VDict [ "kind" :-> VStr "Relation";
              "proposal_id" :-> VStr rel_id;
              "confidence" :-> VFloat conf;
              "evidence" :-> VList [];
              "public_rationale" :-> VStr "onnx world model prediction";
              "metadata" :-> VDict ["model_path" :-> VStr model_path];
              "schema_hint" :-> schema;
              "relation_id" :-> VStr rel_id;
              "rel_type" :-> rel;
              "source" :-> source;
              "target" :-> target;
              "attributes" :-> VDict field_map ]).

(** The loop [for idx, it in enumerate(items[:max_new])], from position
    [idx] on: the list [proposals]. *)
Fixpoint build_proposals (s : session) (model_path : string) (idx : nat)
  (items : list value) : result (list value) :=
  match items with
  | [] => Ok []
  | it :: rest =>
      p <- item_proposal s model_path idx it ;;
      ps <- build_proposals s model_path (S idx) rest ;;
      Ok (p :: ps)
  end.

(** [main()]: the writes on standard output. *)
Definition main (w : world) : result (list chunk) :=
  req <- _read_stdin_json (stdin w) ;;
  trace_id <- py_get_or "trace_id" (VStr "wm::onnx") req ;;
  i <- py_get "input" req ;;
  e <- py_get "export" (py_or i (VDict [])) ;;
  let export := py_or e (VDict []) in
  it <- py_get_or "items" (VList []) export ;;
  let items := py_or it (VList []) in
  o <- py_get_or "options" (VDict []) req ;;
  mp <- py_get "model_path" (py_or o (VDict [])) ;;
  let model_path0 := match mp with VStr s => s | _ => "" end in
  let model_path :=
    if String.eqb model_path0 ""
    then
      let from_env :=
        strip (match environ w "WORLD_MODEL_MODEL_PATH" with Some s => s | None => "" end) in
      if String.eqb from_env "" then "models/world_model_small.onnx" else from_env
    else model_path0 in
  s <- _load_onnx w model_path ;;
  o' <- py_get "options" req ;;
  mn <- py_get_or "max_new_proposals" (VInt 50) (py_or o' (VDict [])) ;;
  max_new <- py_int mn ;;
  head <- py_slice_to items max_new ;;
  its <- py_iter head ;;
  proposals <- build_proposals s model_path 0 its ;;
  proposals_file <- _normalize_proposals (now w) trace_id proposals ;;
  protocol <- py_get_or "protocol" (VStr "axiograph_world_model_v1") req ;;
  let out :=
    VDict [ "protocol" :-> protocol;
            "trace_id" :-> trace_id;
            "generated_at_unix_secs" :-> VInt (now w);
            "proposals" :-> proposals_file;
            "notes" :-> VList [VStr ("backend=onnx model=" +++ model_path)];
            "error" :-> VNone ] in
  Ok [Dump out].

(** The envelope the [except] clause writes. *)
Definition error_envelope (clock : Z) (exc : exception) : value :=
  VDict [ "protocol" :-> VStr "axiograph_world_model_v1";
          "trace_id" :-> VStr "wm::error";
          "generated_at_unix_secs" :-> VInt clock;
          "proposals" :->
            VDict [ "version" :-> VInt 1;
                    "generated_at" :-> VStr (dec clock);
                    "source" :-> VDict [ "source_type" :-> VStr "world_model";
                                         "locator" :-> VStr "error" ];
                    "schema_hint" :-> VNone;
                    "proposals" :-> VList [] ];
          "notes" :-> VList [];
          "error" :-> VStr (exc_str exc) ].

(** The script run as a program: [main()] under [try], with the [except
    Exception] clause that writes the error envelope and calls
    [sys.exit(2)]. *)
Definition run (w : world) : process :=
  match main w with
  | Ok out => {| stdout := out; exit_code := 0 |}
  | Raise exc => {| stdout := [Dump (error_envelope (now w) exc)]; exit_code := 2 |}
  end.

End Script.

End WmOnnx.

(** ** scripts/axiograph_world_model_plugin_baseline.py *)
Module WmBaseline.
Import Py.

Record world := {
  (** [sys.stdin.read()] *)
  stdin : stdin_text;
  (** [args.strategy], which argparse restricts to [oracle] and [random] *)
  strategy : string;
  (** [int(time.time())]; successive readings within one run are taken
      to be equal *)
  now : Z;
  (** [json.load] of the file at [export_path] *)
  read_export : value -> result value
}.

(** How [main] ends when no exception escapes it: it returns, or it raises
    [SystemExit] with a message. *)
Inductive ending :=
| Return (writes : list chunk) (status : Z)
| Exit (message : string).

(** [x in names] for a string [x] and a list of keys. *)
Definition has_name (x : string) (names : list key) : bool :=
  existsb (fun k => key_eqb k (KStr x)) names.

(** [infer_endpoints(field_names)] *)
Definition infer_endpoints (field_names : list key) : value * value :=
  if has_name "from" field_names && has_name "to" field_names
  then (VStr "from", VStr "to")
  else if has_name "source" field_names && has_name "target" field_names
  then (VStr "source", VStr "target")
  else if has_name "lhs" field_names && has_name "rhs" field_names
  then (VStr "lhs", VStr "rhs")
  else if has_name "child" field_names && has_name "parent" field_names
  then (VStr "child", VStr "parent")
  else match field_names with
       | a :: b :: _ => (key_value a, key_value b)
       | _ => (VStr "", VStr "")
       end.

(** [{k: v for (k, v) in fields}] *)
Definition field_dict (fields : value) : result (list (key * value)) :=
  its <- py_iter fields ;;
  WmOnnx.dict_of_pairs [] its.

(** [field_map.get(name, "")] for a name taken from [infer_endpoints] *)
Definition field_get (name : value) (field_map : list (key * value)) : value :=
  match to_key name with
  | Some k => match lookup k field_map with Some v => v | None => VStr "" end
  | None => VStr ""
  end.

Section Script.
Context {I : Interp}.

(** [load_export(req)] *)
Definition load_export (w : world) (req : value) : result value :=
  i <- py_get_or "input" (VDict []) req ;;
  export <- py_get "export" i ;;
  if truthy export then Ok export
  else
    export_path <- py_get "export_path" i ;;
    if truthy export_path then read_export w export_path
    else Ok (VDict []).

(** The body of the loop of [main]: the proposals the item at position
    [idx] adds (none when the loop goes on to the next item). *)
Definition item_proposals (w : world) (idx : nat) (item : value)
  : result (list value) :=
  fields <- py_get_or "fields" (VList []) item ;;
  field_map <- field_dict fields ;;
  let field_names := map fst field_map in
  let '(src_field, dst_field) := infer_endpoints field_names in
  if negb (truthy src_field) || negb (truthy dst_field) then Ok []
  else
    let src := field_get src_field field_map in
    let dst := field_get dst_field field_map in
    if negb (truthy src) || negb (truthy dst) then Ok []
    else
      rel <- py_get_or "relation" (VStr "Rel") item ;;
      let proposal_id :=
        "rel::" +++ py_str rel +++ "::" +++ py_str src +++ "::" +++ py_str dst
        +++ "::" +++ dec_nat idx in
      schema <- py_get "schema" item ;;
      attributes <- field_dict fields ;;
      Ok [VDict [ "kind" :-> VStr "Relation";
                  "proposal_id" :-> VStr proposal_id;
                  "confidence" :-> VFloat (if String.eqb (strategy w) "oracle"
                                           then f0_9 else f0_5);
                  "evidence" :-> VList [];
                  "public_rationale" :-> VStr ("baseline::" +++ strategy w);
                  "metadata" :-> VDict ["baseline" :-> VStr (strategy w)];
                  "schema_hint" :-> schema;
                  "relation_id" :-> VStr proposal_id;
                  "rel_type" :-> rel;
                  "source" :-> src;
                  "target" :-> dst;
                  "attributes" :-> VDict attributes ]].

(** The loop [for idx, item in enumerate(items)], from position [idx] on. *)
Fixpoint build_proposals (w : world) (idx : nat) (items : list value)
  : result (list value) :=
  match items with
  | [] => Ok []
  | item :: rest =>
      ps <- item_proposals w idx item ;;
      more <- build_proposals w (S idx) rest ;;
      Ok (ps ++ more)
  end.

(** [main()] *)
Definition main (w : world) : result ending :=
  req <- load_stdin (stdin w) ;;
  protocol <- py_get "protocol" req ;;
  if negb (eq_str protocol "axiograph_world_model_v1")
  then Ok (Exit "unsupported protocol")
  else
    export <- load_export w req ;;
    items <- py_get_or "items" (VList []) export ;;
    its <- py_iter items ;;
    proposals <- build_proposals w 0 its ;;
    trace_id <- py_get_or "trace_id" (VStr "wm::baseline") req ;;
    locator <- py_get_or "trace_id" (VStr "") req ;;
    let response :=
      VDict [ "protocol" :-> VStr "axiograph_world_model_v1";
              "trace_id" :-> trace_id;
              "generated_at_unix_secs" :-> VInt (now w);
              "proposals" :->
                VDict [ "version" :-> VInt 1;
                        "generated_at" :-> VStr (dec (now w));
                        "source" :-> VDict [ "source_type" :-> VStr "world_model";
                                             "locator" :-> locator ];
                        "schema_hint" :-> VNone;
                        "proposals" :-> VList proposals ];
              "notes" :-> VList [VStr ("baseline strategy=" +++ strategy w
                                       +++ " proposals="
                                       +++ dec_nat (List.length proposals))];
              "error" :-> VNone ] in
    Ok (Return [Dump response] 0).

(** The script run as a program, [raise SystemExit(main())].  Nothing
    catches an exception: the run then ends with status 1 and nothing on
    standard output.  [SystemExit] with a message prints the message on
    standard error and ends the run with status 1 as well. *)
Definition run (w : world) : process :=
  match main w with
  | Ok (Return out status) => {| stdout := out; exit_code := status |}
  | Ok (Exit _) => {| stdout := []; exit_code := 1 |}
  | Raise _ => {| stdout := []; exit_code := 1 |}
  end.

End Script.

End WmBaseline.

(** ** Vocabulary of the statements *)
Module Spec.
Import Py.

(** The records the loop of the real plugin's [_normalize_proposals] walks
    over: the list under [proposals], and nothing when [data] is not a dict
    or holds no list there. *)
Definition input_proposals (data : value) : list value :=
  match data with
  | VDict d =>
      match dict_get_or "proposals" (VList []) d with
      | VList l => l
      | _ => []
      end
  | _ => []
  end.

(** Where the record at input position [i] lands in the output: the number
    of map-shaped records before it. *)
Definition rank (ps : list value) (i : nat) : nat :=
  List.length (filter is_dict (firstn i ps)).

(** [0 <= c <= 1] *)
Definition in_unit_interval (c : float) : bool := float_between f0_0 f1_0 c.

(** The value a proposal holds under [name], when it is a dict with that
    key. *)
Definition field (name : string) (p : value) : option value :=
  match p with
  | VDict d => lookup (KStr name) d
  | _ => None
  end.

(** A proposal whose confidence is a float between [lo] and [hi]. *)
Definition confidence_within (lo hi : float) (p : value) : Prop :=
  exists c, field "confidence" p = Some (VFloat c) /\ float_between lo hi c = true.

(** The proposals of the response a run wrote: [proposals.proposals] of the
    one object on standard output. *)
Definition response_proposals (p : process) : list value :=
  match stdout p with
  | [Dump out] =>
      match field "proposals" out with
      | Some file =>
          match field "proposals" file with
          | Some (VList l) => l
          | _ => []
          end
      | None => []
      end
  | _ => []
  end.

(** The keys of the world-model response envelope, in order. *)
Definition envelope_keys : list key :=
  [ KStr "protocol"; KStr "trace_id"; KStr "generated_at_unix_secs";
    KStr "proposals"; KStr "notes"; KStr "error" ].

(** A run that wrote exactly one envelope, whose [error] is [err], and
    ended with [status]. *)
Definition wrote_envelope (err : value) (status : Z) (p : process) : Prop :=
  exists out,
    stdout p = [Dump (VDict out)] /\ map fst out = envelope_keys
    /\ lookup (KStr "error") out = Some err /\ exit_code p = status.

(** A run whose one response holds an empty [proposals.proposals]. *)
Definition wrote_no_proposals (p : process) : Prop :=
  exists out file,
    stdout p = [Dump out] /\ field "proposals" out = Some file
    /\ field "proposals" file = Some (VList []).

(** A proposal as the loop of the ONNX plugin builds it: a dict whose
    confidence is a float in [0.55, 0.95]. *)
Definition built (p : value) : Prop :=
  exists d c, p = VDict d
              /\ lookup (KStr "confidence") d = Some (VFloat c)
              /\ float_between f0_55 f0_95 c = true.




(** The protocols the LLM plugin serves. *)
Definition supported_protocol (p : value) : bool :=
  eq_str p "axiograph_llm_plugin_v2" || eq_str p "axiograph_llm_plugin_v3".

(** Whether [int] accepts the token that the path template would convert:
    the second token of the question is not a digit string with a
    superscript in it. *)
Definition plain_start (question : string) : bool :=
  let t := nth 1 (split question) "" in
  implb (isdigit t) (forallb is_ascii_digit (chars t)).

(** [needle in text] *)
Definition contains (needle text : string) : Prop :=
  exists before after, text = before +++ needle +++ after.

Section WithInterp.
Context {I : Interp}.

(** A record whose confidence [float] accepts; records that are not dicts
    are passed over and count as fine. *)
Definition confidence_converts (p : value) : bool :=
  match p with
  | VDict d => is_ok (py_float (dict_get_or "confidence" (VFloat f0_7) d))
  | _ => true
  end.

End WithInterp.

End Spec.

(** ** Sample requests *)
Module Samples.
Import Py.

(** An interpreter to run the model on the requests below.  None of them
    holds a string to convert to a number, and the renderings of floats and
    of quoted strings do not matter to what is shown, so these services are
    the simplest ones. *)
Definition plain_interp : Interp :=
  {| float_of_str := fun _ => None;
     int_of_str := fun _ => None;
     repr_float := fun _ => "0.0";
     repr_str := fun s => "'" +++ s +++ "'";
     json_loads := fun _ => None;
     json_dumps_sorted := fun _ => "{}";
     exception_text := fun _ => "error" |}.

(** The sample row of the tool loop: [?x] bound to the Thing [x] with
    id 7. *)
Definition thing_row : value :=
  VDict ["?x" :-> VDict ["id" :-> VInt 7; "name" :-> VStr "x";
                         "entity_type" :-> VStr "Thing"]].

(** A transcript entry holding the result of [axql_run] with [rows]. *)
Definition axql_entry (rows : value) : value :=
  VDict ["tool" :-> VStr "axql_run";
         "result" :-> VDict ["results" :-> VDict ["rows" :-> rows]]].

(** A [tool_loop_step] task. *)
Definition tool_task (question : string) (transcript : list value)
  : list (key * value) :=
  ["kind" :-> VStr "tool_loop_step"; "question" :-> VStr question;
   "transcript" :-> VList transcript].


(** A request of the LLM plugin, protocol v3. *)
Definition llm_request (task : list (key * value)) : value :=
  VDict ["protocol" :-> VStr "axiograph_llm_plugin_v3"; "task" :-> VDict task].

(** The query IR of [find Thing named x]. *)
Definition find_thing_ir : value :=
  VDict [ "version" :-> VInt 1; "select" :-> VList [VStr "?x"];
          "where" :-> VList [VDict ["kind" :-> VStr "attr_eq"; "term" :-> VStr "?x";
                                    "key" :-> VStr "name"; "value" :-> VStr "x"]];
          "limit" :-> VInt 20 ].

(** The one-character string [²] (superscript two, code point 178). *)
Definition superscript_two : string := String (ascii_of_nat 178) EmptyString.

(** The float 5.0. *)
Definition f5_0 : float := S754_finite false 5629499534213120 (-50).

(** A world of the baseline plugin with [req] on standard input and no
    export file to read. *)
Definition baseline_world (req : value) : WmBaseline.world :=
  {| WmBaseline.stdin := JsonText req;
     WmBaseline.strategy := "oracle";
     WmBaseline.now := 1700000000;
     WmBaseline.read_export := fun _ => Raise (External "no such file") |}.

(** A world of the ONNX plugin whose model answers [score] on every seed. *)
Definition onnx_world (req : value) (score : float) : WmOnnx.world :=
  {| WmOnnx.stdin := JsonText req;
     WmOnnx.environ := fun _ => None;
     WmOnnx.now := 1700000000;
     WmOnnx._load_onnx :=
       fun _ => Ok {| WmOnnx.infer := fun _ => Ok (Some score) |} |}.

(** A world-model request with one export item. *)
Definition export_request : value :=
  VDict [ "protocol" :-> VStr "axiograph_world_model_v1";
          "trace_id" :-> VStr "t1";
          "input" :->
            VDict ["export" :->
                     VDict ["items" :->
                              VList [VDict [ "relation" :-> VStr "knows";
                                             "fields" :->
                                               VList [VList [VStr "from"; VStr "a"];
                                                      VList [VStr "to"; VStr "b"]] ]]]] ].

(** A world-model request whose one item has a field pair without a
    value. *)
Definition broken_pair_request : value :=
  VDict [ "protocol" :-> VStr "axiograph_world_model_v1";
          "trace_id" :-> VStr "t1";
          "input" :->
            VDict ["export" :->
                     VDict ["items" :->
                              VList [VDict [ "relation" :-> VStr "knows";
                                             "fields" :-> VList [VList [VStr "from"]] ]]]] ].

End Samples.

(** ** Facts about the builtins *)
Module PyFacts.
Import Py.

(** Only the string [s] itself is a key equal to [KStr s]. *)
Lemma key_eqb_str_inv (k : key) (s : string) :
  key_eqb k (KStr s) = true -> k = KStr s.
Proof.
  destruct k; simpl; intro H; try discriminate H.
  apply String.eqb_eq in H. now subst.
Qed.

Lemma lookup_dict_set_same (name : string) (v : value) (d : list (key * value)) :
  lookup (KStr name) (dict_set (KStr name) v d) = Some v.
Proof.
  induction d as [| [k x] d IH]; simpl.
  - now rewrite String.eqb_refl.
  - destruct (key_eqb k (KStr name)) eqn:E; simpl; rewrite E; auto.
Qed.

Lemma lookup_dict_set_other (a b : string) (v : value) (d : list (key * value)) :
  a <> b -> lookup (KStr a) (dict_set (KStr b) v d) = lookup (KStr a) d.
Proof.
  intro Hab. induction d as [| [k x] d IH]; simpl.
  - destruct (String.eqb b a) eqn:E; auto.
    apply String.eqb_eq in E. congruence.
  - destruct (key_eqb k (KStr b)) eqn:E; simpl.
    + apply key_eqb_str_inv in E. subst k. simpl.
      destruct (String.eqb b a) eqn:E'; auto.
      apply String.eqb_eq in E'. congruence.
    + now rewrite IH.
Qed.

Lemma lookup_setdefault_other (a b : string) (v : value) (d : list (key * value)) :
  a <> b -> lookup (KStr a) (dict_setdefault b v d) = lookup (KStr a) d.
Proof.
  intro Hab. unfold dict_setdefault. destruct (dict_has b d); auto.
  now apply lookup_dict_set_other.
Qed.

Lemma bind_ok {A B} (c : result A) (k : A -> result B) (b : B) :
  bind c k = Ok b -> exists a, c = Ok a /\ k a = Ok b.
Proof. destruct c as [a | e]; simpl; [eauto | discriminate]. Qed.

(** The strict order of floats implies the large one. *)
Lemma float_ltb_leb (a b : float) : float_ltb a b = true -> float_leb a b = true.
Proof.
  unfold float_ltb, float_leb, SFltb, SFleb.
  destruct (SFcompare a b) as [[ | | ] |]; auto; discriminate.
Qed.

End PyFacts.

(** ** Properties of the LLM mock plugin *)
Module LlmMockProofs.
Import Py LlmMock Spec Samples PyFacts.

Section Proofs.
Context {I : Interp}.


(** A payload is a dict with the query IR and the AxQL text, in this order. *)
Lemma build_query_payload_shape (question : string) (p : value) :
  build_query_payload question = Ok p ->
  exists ir axql, p = VDict ["query_ir_v1" :-> ir; "axql" :-> VStr axql].
Proof.
  unfold build_query_payload. cbv zeta.
  destruct (_ || _).
  - destruct (int_of_digits _); simpl; intro H; inversion H; eauto.
  - destruct (_ && _); intro H; inversion H; eauto.
Qed.




Lemma strip_or_empty_str (s : string) : strip_or_empty (VStr s) = Ok (strip s).
Proof.
  unfold strip_or_empty, py_or. destruct (truthy (VStr s)) eqn:E; auto.
  simpl in E. apply negb_false_iff, String.eqb_eq in E. now subst.
Qed.

Lemma seq_pos_last (n : nat) : seq_pos (n + 1) (-1) = Some n.
Proof.
  unfold seq_pos. change (Z.ltb (-1) 0) with true. cbv iota.
  assert (E : (-1 + Z.of_nat (n + 1) = Z.of_nat n)%Z) by lia.
  rewrite E.
  assert (L : Z.leb 0 (Z.of_nat n) = true) by (apply Z.leb_le; lia).
  assert (U : Z.ltb (Z.of_nat n) (Z.of_nat (n + 1)) = true) by (apply Z.ltb_lt; lia).
  rewrite L, U, Nat2Z.id. reflexivity.
Qed.

(** [transcript[-1]] is the last entry. *)
Lemma last_entry (earlier : list value) (e : value) :
  py_item (VList (earlier ++ [e])) (-1) = Ok e.
Proof.
  unfold py_item. rewrite length_app. simpl List.length.
  rewrite seq_pos_last, nth_error_app2, Nat.sub_diag by lia. reflexivity.
Qed.

Lemma truthy_snoc (earlier : list value) (e : value) :
  truthy (VList (earlier ++ [e])) = true.
Proof. destruct earlier; reflexivity. Qed.

Lemma py_or_snoc (earlier : list value) (e : value) :
  py_or (VList (earlier ++ [e])) (VList []) = VList (earlier ++ [e]).
Proof. unfold py_or. now rewrite truthy_snoc. Qed.

(** C8. For the question [find Thing named x] with an empty transcript the
    tool loop emits a tool call to [axql_run] whose arguments are the query
    IR built for the question and the limit 25.  With a transcript whose last
    entry is the [axql_run] result holding the one row that binds [?x] to
    the Thing [x] of id 7, it emits a final answer whose text contains
    [Found 1 result rows] and renders the binding as [?x=x (Thing, id=7)]. *)
Theorem tool_loop_find_thing (earlier : list value) :
  (exists axql,
      build_query_payload "find Thing named x"
      = Ok (VDict ["query_ir_v1" :-> find_thing_ir; "axql" :-> VStr axql]))
  /\ respond_tool_loop_step (tool_task "find Thing named x" [])
     = Ok (respond_ok
             (VDict ["tool_call" :->
                       VDict [ "name" :-> VStr "axql_run";
                               "args" :-> VDict ["query_ir_v1" :-> find_thing_ir;
                                                 "limit" :-> VInt 25] ]]))
  /\ respond_tool_loop_step
       (tool_task "find Thing named x" (earlier ++ [axql_entry (VList [thing_row])]))
     = Ok (respond_ok
             (VDict ["final_answer" :->
                       VDict [ "answer" :->
                                 VStr "Found 1 result rows. First row: ?x=x (Thing, id=7)";
                               "citations" :-> VList [];
                               "queries" :-> VList [];
                               "notes" :-> mock_notes ]]))
  /\ contains "Found 1 result rows"
       "Found 1 result rows. First row: ?x=x (Thing, id=7)"
  /\ contains "?x=x (Thing, id=7)"
       "Found 1 result rows. First row: ?x=x (Thing, id=7)".
Proof.
  split; [| split; [| split; [| split]]].
  - eexists. reflexivity.
  - reflexivity.
  - unfold respond_tool_loop_step, tool_task.
    change (dict_get "question" _) with (VStr "find Thing named x").
    rewrite strip_or_empty_str. cbn [bind].
    change (dict_get "transcript" _)
      with (VList (earlier ++ [axql_entry (VList [thing_row])])).
    rewrite py_or_snoc, truthy_snoc. cbn [negb].
    rewrite last_entry. reflexivity.
  - exists "", ". First row: ?x=x (Thing, id=7)". reflexivity.
  - exists "Found 1 result rows. First row: ", "". reflexivity.
Qed.

(** C1, at two tasks on which the engine emits neither a tool call nor a
    final answer.  With a transcript whose [axql_run] result holds a number
    where the rows belong, [len(rows)] raises [TypeError].  With no
    transcript and a question that starts with [from] and a superscript
    digit, [isdigit] accepts the token and [int] raises [ValueError] on it.
    Either way nothing is written and the run ends with status 1. *)
Theorem tool_loop_raises :
  respond_tool_loop_step (tool_task "find Thing named x" [axql_entry (VInt 3)])
  = Raise TypeError
  /\ run (JsonText (llm_request (tool_task "find Thing named x" [axql_entry (VInt 3)])))
     = {| stdout := []; exit_code := 1 |}
  /\ respond_tool_loop_step (tool_task ("from " +++ superscript_two) [])
     = Raise ValueError
  /\ run (JsonText (llm_request (tool_task ("from " +++ superscript_two) [])))
     = {| stdout := []; exit_code := 1 |}.
Proof. repeat split. Qed.

(** The same missing guard one level up: a result whose [results] is text
    has no [get]. *)
Lemma tool_loop_raises_on_text_results :
  respond_tool_loop_step
    (tool_task "find Thing named x"
       [VDict ["tool" :-> VStr "axql_run";
               "result" :-> VDict ["results" :-> VStr "timeout"]]])
  = Raise AttributeError.
Proof. reflexivity. Qed.

(** The query builder returns on every question whose second token [int]
    accepts whenever [isdigit] does. *)
Lemma build_query_payload_total (question : string) :
  plain_start question = true ->
  exists p, build_query_payload question = Ok p.
Proof.
  unfold plain_start, build_query_payload, tok. cbv zeta. intro Hp.
  destruct (_ || _).
  - assert (Hs : exists n, int_of_digits
                   (if strings_eqb (firstn 1 (map lower (split question))) ["from"]
                       && Nat.leb 2 (List.length (split question))
                       && isdigit (nth 1 (split question) "")
                    then nth 1 (split question) "" else "0") = Ok n).
    { destruct (_ && _ && isdigit _) eqn:E; [| eexists; reflexivity].
      apply andb_true_iff in E. destruct E as [_ Hd]. rewrite Hd in Hp.
      simpl in Hp. unfold int_of_digits, isdigit in *.
      destruct (chars (nth 1 (split question) "")); [discriminate Hd |].
      rewrite Hp. eauto. }
    destruct Hs as [n ->]. simpl. eauto.
  - destruct (_ && _); eauto.
Qed.

(** The engine answers whenever the query builder does on a first turn,
    and, on a later turn, whenever the [results] of a last [axql_run]
    result is a dict (or falsy) and its [rows] a list (or falsy). *)
Lemma tool_loop_answers (question : string) (transcript : list value) :
  plain_start (strip question) = true ->
  match last transcript VNone with
  | VDict l =>
      eq_str (dict_get "tool" l) "axql_run" = true ->
      forall result, py_or (dict_get "result" l) (VDict []) = VDict result ->
        exists results rows,
          py_or (dict_get "results" result) (VDict []) = VDict results
          /\ py_or (dict_get "rows" results) (VList []) = VList rows
  | _ => True
  end ->
  exists r, respond_tool_loop_step (tool_task question transcript) = Ok r.
Proof.
  intros Hq Hlast. unfold respond_tool_loop_step, tool_task.
  change (dict_get "question" _) with (VStr question).
  rewrite strip_or_empty_str. cbn [bind].
  change (dict_get "transcript" _) with (VList transcript).
  destruct transcript as [| x tr].
  2: {
    destruct (exists_last (l := x :: tr)) as (earlier & e & E); [discriminate |].
    rewrite E in *. rewrite py_or_snoc, truthy_snoc. cbn [negb].
    rewrite last_entry. cbn [bind]. rewrite last_last in Hlast.
    destruct e as [ | | | | | | l]; eauto.
    destruct (eq_str (dict_get "tool" l) "axql_run"); eauto.
    destruct (py_or (dict_get "result" l) (VDict [])) as [ | | | | | | result] eqn:Er; eauto.
    destruct (Hlast eq_refl result eq_refl) as (results & rows & Hres & Hrows).
    rewrite Hres. simpl py_get. cbn [bind]. rewrite Hrows. simpl py_len. cbn [bind].
    destruct rows as [| first rows]; simpl; eauto.
    destruct first; simpl; eauto. }
  simpl.
  destruct (build_query_payload_total _ Hq) as [p Hp]. rewrite Hp. cbn [bind].
  destruct (build_query_payload_shape _ _ Hp) as (ir & axql & ->). simpl. eauto.
Qed.

(** When the engine answers, the answer is a tool call exactly on an empty or
    absent transcript and a final answer otherwise. *)
Lemma tool_loop_step_kind (task : list (key * value)) (r : reply) :
  respond_tool_loop_step task = Ok r ->
  exists body,
    r = respond_ok
          (VDict [(if truthy (py_or (dict_get "transcript" task) (VList []))
                   then "final_answer" else "tool_call") :-> body]).
Proof.
  unfold respond_tool_loop_step. intro H.
  apply bind_ok in H. destruct H as (question & _ & H).
  destruct (truthy (py_or (dict_get "transcript" task) (VList []))); cbn [negb] in H.
  - apply bind_ok in H. destruct H as (last & _ & H).
    destruct last as [ | | | | | | l]; try (inversion H; eauto).
    destruct (eq_str (dict_get "tool" l) "axql_run"); [| inversion H; eauto].
    destruct (py_or (dict_get "result" l) (VDict [])); try (inversion H; eauto).
    clear H1.
    apply bind_ok in H. destruct H as (rows & _ & H).
    apply bind_ok in H. destruct H as (n & _ & H).
    apply bind_ok in H. destruct H as (msg & _ & H).
    inversion H. eauto.
  - apply bind_ok in H. destruct H as (p & _ & H).
    apply bind_ok in H. destruct H as (ir & _ & H).
    inversion H. eauto.
Qed.

(** A transcript whose last entry is not an [axql_run] result gets the
    generic final answer. *)
Lemma tool_loop_fallback (question : string) (earlier : list value) (e : value) :
  match e with
  | VDict l => eq_str (dict_get "tool" l) "axql_run" = false
  | _ => True
  end ->
  respond_tool_loop_step (tool_task question (earlier ++ [e]))
  = Ok (respond_ok
          (VDict ["final_answer" :->
                    VDict [ "answer" :-> VStr "Done.";
                            "citations" :-> VList [];
                            "queries" :-> VList [];
                            "notes" :-> mock_notes ]])).
Proof.
  intro He. unfold respond_tool_loop_step, tool_task.
  change (dict_get "question" _) with (VStr question).
  rewrite strip_or_empty_str. cbn [bind].
  change (dict_get "transcript" _) with (VList (earlier ++ [e])).
  rewrite py_or_snoc, truthy_snoc. cbn [negb].
  rewrite last_entry. cbn [bind].
  destruct e; try reflexivity. now rewrite He.
Qed.








End Proofs.



(** The attributes are not consulted when the metadata already names a
    domain: no entry either. *)
Lemma augment_metadata_shadows_attributes :
  respond_augment_proposals
    [ "kind" :-> VStr "augment_proposals";
      "proposals" :->
        VDict ["proposals" :->
                 VList [VDict [ "proposal_id" :-> VStr "p1";
                                "metadata" :-> VDict ["domain" :-> VStr "woodworking"];
                                "attributes" :-> VDict ["domain" :-> VStr "machining"] ]]] ]
  = Ok (respond_ok (VDict [ "schema_hint_updates" :-> VList [];
                            "added_proposals" :-> added_proposals;
                            "notes" :-> augment_notes ])).
Proof. reflexivity. Qed.


End LlmMockProofs.

(** ** Properties of the proposal canonicalizer *)
Module NormalizeProofs.
Import Py Spec Samples PyFacts.

Section Proofs.
Context {I : Interp}.

(** What the loop body of the real plugin's canonicalizer makes of a record
    whose confidence converts to the float [c]. *)
Lemma normalize_record_fields (trace_id : value) (idx : nat)
  (p : list (key * value)) (c : float) :
  py_float (dict_get_or "confidence" (VFloat f0_7) p) = Ok c ->
  exists q,
    WmReal.normalize_record trace_id idx p = Ok (VDict q)
    /\ lookup (KStr "confidence") q = Some (VFloat c)
    /\ lookup (KStr "proposal_id") q
       = Some (py_or (dict_get "proposal_id" p)
                     (VStr ("wm::" +++ py_str trace_id +++ "::" +++ dec_nat idx)))
    /\ lookup (KStr "kind") q
       = Some (VStr (if String.eqb (lower (py_str (dict_get "kind" p))) "entity"
                     then "Entity" else "Relation")).
Proof.
  intro Hc. unfold WmReal.normalize_record. cbv zeta. rewrite Hc. cbn [bind].
  destruct (String.eqb (lower (py_str (dict_get "kind" p))) "entity");
    eexists; repeat split.
Qed.

Lemma rank_cons_dict (d : list (key * value)) (ps : list value) (i : nat) :
  rank (VDict d :: ps) (S i) = S (rank ps i).
Proof. reflexivity. Qed.

Lemma rank_cons_other (x : value) (ps : list value) (i : nat) :
  is_dict x = false -> rank (x :: ps) (S i) = rank ps i.
Proof. intro H. unfold rank. simpl. now rewrite H. Qed.

(** The loop returns when every record converts, and the record at input
    position [i] is canonicalized with that position, whatever was passed
    over before it. *)
Lemma normalize_loop_spec (trace_id : value) (ps : list value) :
  forall idx,
    forallb confidence_converts ps = true ->
    exists fixed,
      WmReal.normalize_loop trace_id idx ps = Ok fixed
      /\ forall i p, nth_error ps i = Some (VDict p) ->
           exists q, nth_error fixed (rank ps i) = Some q
                     /\ WmReal.normalize_record trace_id (idx + i) p = Ok q.
Proof.
  induction ps as [| x ps IH]; intros idx Hall.
  - exists []. split; [reflexivity |]. intros [| i] p H; discriminate H.
  - simpl in Hall. apply andb_true_iff in Hall. destruct Hall as [Hx Hps].
    destruct (IH (S idx) Hps) as (fixed & Hloop & Hnth).
    assert (Hother : is_dict x = false ->
              WmReal.normalize_loop trace_id idx (x :: ps)
              = WmReal.normalize_loop trace_id (S idx) ps)
      by (destruct x; simpl; intro; reflexivity || discriminate).
    destruct x as [ | b | z | f | s | l | d].
    7: {
      simpl in Hx.
      destruct (py_float (dict_get_or "confidence" (VFloat f0_7) d)) as [c | e] eqn:Hc;
        [| discriminate Hx].
      destruct (normalize_record_fields trace_id idx d c Hc) as (q & Hq & _).
      exists (VDict q :: fixed). split.
      - simpl. rewrite Hq, Hloop. reflexivity.
      - intros [| i] p H.
        + simpl in H. injection H as ->. exists (VDict q).
          rewrite Nat.add_0_r. split; [reflexivity | exact Hq].
        + simpl in H. destruct (Hnth i p H) as (q' & Hq' & Hr).
          exists q'. rewrite rank_cons_dict, Nat.add_succ_r. split; assumption. }
    all: exists fixed; split; [rewrite Hother by reflexivity; exact Hloop |];
      intros [| i] p H; [discriminate H |];
      simpl in H; destruct (Hnth i p H) as (q' & Hq' & Hr);
      exists q'; rewrite rank_cons_other by reflexivity;
      rewrite Nat.add_succ_r; split; assumption.
Qed.

(** The four [setdefault] calls leave the list under [proposals] alone. *)
Lemma proposals_after_defaults (clock : Z) (trace_id : value) (out0 : list (key * value)) :
  let out1 := dict_setdefault "version" (VInt 1) out0 in
  let out2 := dict_setdefault "generated_at" (VStr (dec clock)) out1 in
  let out3 :=
    dict_setdefault "source"
      (VDict ["source_type" :-> VStr "world_model"; "locator" :-> trace_id]) out2 in
  let out4 := dict_setdefault "schema_hint" VNone out3 in
  dict_get_or "proposals" (VList []) out4 = dict_get_or "proposals" (VList []) out0.
Proof.
  cbv zeta. unfold dict_get_or.
  rewrite !lookup_setdefault_other by discriminate. reflexivity.
Qed.

(** The canonicalizer returns a document when every record converts; its
    [proposals] are what the loop made of the input records. *)
Lemma normalize_returns (clock : Z) (trace_id data : value) :
  forallb confidence_converts (input_proposals data) = true ->
  exists out fixed,
    WmReal._normalize_proposals clock trace_id data = Ok (VDict out)
    /\ lookup (KStr "proposals") out = Some (VList fixed)
    /\ WmReal.normalize_loop trace_id 0 (input_proposals data) = Ok fixed.
Proof.
  intro Hall. unfold WmReal._normalize_proposals. cbv zeta.
  rewrite proposals_after_defaults.
  assert (E : match dict_get_or "proposals" (VList [])
                      match data with VDict d => d | _ => [] end with
              | VList l => l
              | _ => []
              end = input_proposals data)
    by (destruct data; reflexivity).
  rewrite E.
  destruct (normalize_loop_spec trace_id (input_proposals data) 0 Hall)
    as (fixed & Hloop & _).
  rewrite Hloop. cbn [bind]. eexists. exists fixed. split; [reflexivity |].
  split; [apply lookup_dict_set_same | reflexivity].
Qed.

(** The canonical form of the record at input position [i]. *)
Lemma normalize_at (clock : Z) (trace_id data : value) (i : nat)
  (p : list (key * value)) :
  nth_error (input_proposals data) i = Some (VDict p) ->
  forallb confidence_converts (input_proposals data) = true ->
  exists out fixed q,
    WmReal._normalize_proposals clock trace_id data = Ok (VDict out)
    /\ lookup (KStr "proposals") out = Some (VList fixed)
    /\ nth_error fixed (rank (input_proposals data) i) = Some q
    /\ WmReal.normalize_record trace_id i p = Ok q.
Proof.
  intros Hi Hall.
  destruct (normalize_returns clock trace_id data Hall)
    as (out & fixed & Hn & Hl & Hloop).
  destruct (normalize_loop_spec trace_id (input_proposals data) 0 Hall)
    as (fixed' & Hloop' & Hnth).
  rewrite Hloop in Hloop'. injection Hloop' as <-.
  destruct (Hnth i p Hi) as (q & Hq & Hr).
  exists out, fixed, q. auto.
Qed.


(** The loop body of the ONNX plugin's copy does the same with the
    confidence of a record: it converts it and hands it on. *)
Lemma onnx_normalize_record_confidence (trace_id : value) (idx : nat)
  (d : list (key * value)) (c : float) :
  py_float (dict_get_or "confidence" (VFloat f0_7) d) = Ok c ->
  exists q, WmOnnx.normalize_record trace_id idx (VDict d) = Ok q
            /\ field "confidence" q = Some (VFloat c).
Proof.
  intro Hc. unfold WmOnnx.normalize_record. cbv zeta.
  simpl py_get_or. cbn [bind]. rewrite Hc. cbn [bind].
  destruct (String.eqb _ "entity"); eexists; split; reflexivity.
Qed.

(** C3, amended. When every map-shaped record of the input has a
    confidence that converts to a float, the confidence of the canonical
    record is the float conversion of the input's value (of 0.7 when the
    field is absent), unchanged: nothing clamps it, so it lies in [0,1]
    exactly when the converted input does.  The ONNX plugin's copy of the
    canonicalizer treats the confidence of a record the same way. *)
Theorem normalize_confidence_unclamped (clock : Z) (trace_id data : value)
  (i : nat) (p : list (key * value)) :
  nth_error (input_proposals data) i = Some (VDict p) ->
  forallb confidence_converts (input_proposals data) = true ->
  (exists out fixed q c,
      WmReal._normalize_proposals clock trace_id data = Ok (VDict out)
      /\ lookup (KStr "proposals") out = Some (VList fixed)
      /\ nth_error fixed (rank (input_proposals data) i) = Some (VDict q)
      /\ py_float (dict_get_or "confidence" (VFloat f0_7) p) = Ok c
      /\ lookup (KStr "confidence") q = Some (VFloat c))
  /\ (forall idx d c,
         py_float (dict_get_or "confidence" (VFloat f0_7) d) = Ok c ->
         exists q, WmOnnx.normalize_record trace_id idx (VDict d) = Ok q
                   /\ field "confidence" q = Some (VFloat c)).
Proof.
  intros Hi Hall. split; [| intros; now apply onnx_normalize_record_confidence].
  destruct (normalize_at clock trace_id data i p Hi Hall)
    as (out & fixed & q & Hn & Hl & Hq & Hr).
  assert (Hp : confidence_converts (VDict p) = true).
  { rewrite forallb_forall in Hall. apply Hall. eapply nth_error_In; eauto. }
  simpl in Hp.
  destruct (py_float (dict_get_or "confidence" (VFloat f0_7) p)) as [c | e] eqn:Hc;
    [| discriminate Hp].
  destruct (normalize_record_fields trace_id i p c Hc) as (q' & Hq' & Hconf & _).
  rewrite Hr in Hq'. injection Hq' as ->.
  exists out, fixed, q', c. auto.
Qed.

(** C2, at a record whose confidence is [null]: [float(None)] raises
    [TypeError] and the canonicalizer returns no document. *)
Theorem normalize_raises_on_null_confidence (clock : Z) :
  WmReal._normalize_proposals clock (VStr "t1")
    (VDict ["proposals" :->
              VList [VDict [ "kind" :-> VStr "Entity";
                             "name" :-> VStr "Lathe";
                             "confidence" :-> VNone ]]])
  = Raise TypeError.
Proof. reflexivity. Qed.

(** The ONNX plugin's canonicalizer has no guard against a record that is
    not map-shaped: it raises on it. *)
Lemma onnx_normalize_raises_on_non_map (clock : Z) :
  WmOnnx._normalize_proposals clock (VStr "t1") [VStr "note"] = Raise AttributeError.
Proof. reflexivity. Qed.

(** Records that are not map-shaped are passed over by the real plugin's
    canonicalizer. *)
Lemma normalize_skips_non_maps (trace_id x : value) (idx : nat) (ps : list value) :
  is_dict x = false ->
  WmReal.normalize_loop trace_id idx (x :: ps)
  = WmReal.normalize_loop trace_id (S idx) ps.
Proof. destruct x; simpl; intro H; reflexivity || discriminate H. Qed.

(** The kind of a canonical record is [Entity] when the input's kind reads
    [entity] in any letter case, and [Relation] otherwise. *)
Lemma normalize_kind (trace_id : value) (idx : nat) (p : list (key * value))
  (q : value) :
  WmReal.normalize_record trace_id idx p = Ok q ->
  field "kind" q
  = Some (VStr (if String.eqb (lower (py_str (dict_get "kind" p))) "entity"
                then "Entity" else "Relation")).
Proof.
  intro H. unfold WmReal.normalize_record in H. cbv zeta in H.
  apply bind_ok in H. destruct H as (c & Hc & H).
  destruct (normalize_record_fields trace_id idx p c Hc) as (q' & Hq' & _ & _ & Hk).
  unfold WmReal.normalize_record in Hq'. cbv zeta in Hq'. rewrite Hc in Hq'.
  cbn [bind] in Hq'. rewrite H in Hq'. injection Hq' as ->. exact Hk.
Qed.

End Proofs.


(** An input whose one record asks for confidence 5. *)
Lemma normalize_confidence_unclamped_witness :
  exists out fixed q,
    WmReal._normalize_proposals (I := plain_interp) 1700000000 (VStr "t1")
      (VDict ["proposals" :-> VList [VDict ["confidence" :-> VInt 5]]])
    = Ok (VDict out)
    /\ lookup (KStr "proposals") out = Some (VList fixed)
    /\ nth_error fixed 0 = Some (VDict q)
    /\ lookup (KStr "confidence") q = Some (VFloat f5_0).
Proof.
  destruct (normalize_confidence_unclamped (I := plain_interp) 1700000000 (VStr "t1")
              (VDict ["proposals" :-> VList [VDict ["confidence" :-> VInt 5]]])
              0 ["confidence" :-> VInt 5] eq_refl eq_refl)
    as [(out & fixed & q & c & Hn & Hl & Hq & Hc & Hconf) _].
  vm_compute in Hc. injection Hc as <-.
  exists out, fixed, q. repeat split; auto.
Defined.

(** C3, as stated, fails on a record that asks for confidence 5: the
    canonical record holds the float 5.0, which is not in [0,1]. *)
Lemma normalize_passes_confidence_5 :
  WmReal._normalize_proposals (I := plain_interp) 1700000000 (VStr "t1")
    (VDict ["proposals" :->
              VList [VDict ["kind" :-> VStr "Relation"; "confidence" :-> VInt 5]]])
  = Ok (VDict
          [ "proposals" :->
              VList [VDict [ "proposal_id" :-> VStr "wm::t1::0";
                             "confidence" :-> VFloat f5_0;
                             "evidence" :-> VList [];
                             "public_rationale" :-> VStr "world model proposal";
                             "metadata" :-> VDict [];
                             "schema_hint" :-> VNone;
                             "kind" :-> VStr "Relation";
                             "relation_id" :-> VStr "wm::t1::0:rel";
                             "rel_type" :-> VStr "related_to";
                             "source" :-> VStr "";
                             "target" :-> VStr "";
                             "attributes" :-> VDict [] ]];
            "version" :-> VInt 1;
            "generated_at" :-> VStr "1700000000";
            "source" :-> VDict ["source_type" :-> VStr "world_model";
                                "locator" :-> VStr "t1"];
            "schema_hint" :-> VNone ])
  /\ in_unit_interval f5_0 = false.
Proof. split; reflexivity. Qed.

End NormalizeProofs.

(** ** Properties of the world-model plugins as programs *)
Module WorldModelProofs.
Import Py Spec Samples PyFacts.

(** Peels the binds of a computation that returned. *)
Ltac peel H :=
  repeat (apply bind_ok in H; let x := fresh "x" in destruct H as (x & _ & H)).

(** The clamp of the ONNX plugin lands in [0.55, 0.95], NaN included. *)
Lemma clamp_score_range (score : float) :
  float_between f0_55 f0_95 (WmOnnx.clamp_score score) = true.
Proof.
  unfold WmOnnx.clamp_score, WmOnnx.py_min, WmOnnx.py_max, float_between.
  destruct (float_ltb score f0_95) eqn:Hhi.
  - destruct (float_ltb f0_55 score) eqn:Hlo.
    + now rewrite (float_ltb_leb _ _ Hlo), (float_ltb_leb _ _ Hhi).
    + reflexivity.
  - reflexivity.
Qed.

Section Proofs.
Context {I : Interp}.

(** A successful [main] of the real plugin wrote one envelope with a null
    [error]. *)
Lemma real_main_envelope (w : WmReal.world) (out : list chunk) :
  WmReal.main w = Ok out ->
  exists o, out = [Dump (VDict o)] /\ map fst o = envelope_keys
            /\ lookup (KStr "error") o = Some VNone.
Proof.
  unfold WmReal.main. intro H.
  apply bind_ok in H. destruct H as (req & _ & H).
  apply bind_ok in H. destruct H as ([prompt summary] & _ & H).
  peel H. injection H as <-. eexists. repeat split.
Qed.

(** The same for the ONNX plugin. *)
Lemma onnx_main_envelope (w : WmOnnx.world) (out : list chunk) :
  WmOnnx.main w = Ok out ->
  exists o, out = [Dump (VDict o)] /\ map fst o = envelope_keys
            /\ lookup (KStr "error") o = Some VNone.
Proof.
  unfold WmOnnx.main. intro H. peel H. injection H as <-.
  eexists. repeat split.
Qed.

(** The same for the baseline plugin, when [main] returns. *)
Lemma baseline_main_envelope (w : WmBaseline.world) (out : list chunk) (status : Z) :
  WmBaseline.main w = Ok (WmBaseline.Return out status) ->
  status = 0%Z
  /\ exists o, out = [Dump (VDict o)] /\ map fst o = envelope_keys
               /\ lookup (KStr "error") o = Some VNone.
Proof.
  unfold WmBaseline.main. intro H.
  apply bind_ok in H. destruct H as (req & _ & H).
  apply bind_ok in H. destruct H as (protocol & _ & H).
  destruct (negb _); [discriminate H |].
  peel H. injection H as <- <-. split; [reflexivity |].
  eexists. repeat split.
Qed.

(** C7, amended. The real and the ONNX world-model plugins write exactly
    one response envelope in every run: when [main] succeeds, its [error]
    is null and the exit status is 0; when [main] raises, [error] is the
    text of the exception, [proposals.proposals] is empty and the exit
    status is 2.  The baseline plugin has no such handler: when its [main]
    returns it has written one envelope with a null [error] and the status
    is 0, and otherwise the run ends with status 1 and nothing written. *)
Theorem world_model_envelope (wr : WmReal.world) (wo : WmOnnx.world)
  (wb : WmBaseline.world) :
  match WmReal.main wr with
  | Ok _ => wrote_envelope VNone 0 (WmReal.run wr)
  | Raise exc => wrote_envelope (VStr (exc_str exc)) 2 (WmReal.run wr)
                 /\ wrote_no_proposals (WmReal.run wr)
  end
  /\ match WmOnnx.main wo with
     | Ok _ => wrote_envelope VNone 0 (WmOnnx.run wo)
     | Raise exc => wrote_envelope (VStr (exc_str exc)) 2 (WmOnnx.run wo)
                    /\ wrote_no_proposals (WmOnnx.run wo)
     end
  /\ match WmBaseline.main wb with
     | Ok (WmBaseline.Return _ _) => wrote_envelope VNone 0 (WmBaseline.run wb)
     | _ => WmBaseline.run wb = {| stdout := []; exit_code := 1 |}
     end.
Proof.
  split; [| split].
  - unfold WmReal.run. destruct (WmReal.main wr) as [out | exc] eqn:E.
    + destruct (real_main_envelope wr out E) as (o & -> & Hk & He).
      exists o. auto.
    + split.
      * eexists. repeat split.
      * eexists. eexists. repeat split.
  - unfold WmOnnx.run. destruct (WmOnnx.main wo) as [out | exc] eqn:E.
    + destruct (onnx_main_envelope wo out E) as (o & -> & Hk & He).
      exists o. auto.
    + split.
      * eexists. repeat split.
      * eexists. eexists. repeat split.
  - unfold WmBaseline.run. destruct (WmBaseline.main wb) as [[out status | msg] | exc] eqn:E;
      try reflexivity.
    destruct (baseline_main_envelope wb out status E) as (-> & o & -> & Hk & He).
    exists o. auto.
Qed.

Lemma built_confidence_within (p : value) :
  built p -> confidence_within f0_55 f0_95 p.
Proof. intros (d & c & -> & Hc & Hr). exists c. auto. Qed.

(** The proposal of one item carries the clamped score. *)
Lemma item_proposal_built (s : WmOnnx.session) (model_path : string) (idx : nat)
  (it p : value) :
  WmOnnx.item_proposal s model_path idx it = Ok p -> built p.
Proof.
  unfold WmOnnx.item_proposal. intro H. peel H. injection H as <-.
  eexists. eexists. split; [reflexivity |]. split; [reflexivity |].
  apply clamp_score_range.
Qed.

Lemma build_proposals_built (s : WmOnnx.session) (model_path : string)
  (items : list value) :
  forall idx ps, WmOnnx.build_proposals s model_path idx items = Ok ps ->
                 Forall built ps.
Proof.
  induction items as [| it items IH]; simpl; intros idx ps H.
  - injection H as <-. constructor.
  - apply bind_ok in H. destruct H as (p & Hp & H).
    apply bind_ok in H. destruct H as (rest & Hrest & H).
    injection H as <-. constructor; eauto using item_proposal_built.
Qed.

(** The canonicalizer of the ONNX plugin hands a float confidence on as
    it is. *)
Lemma onnx_record_keeps_confidence (trace_id : value) (idx : nat)
  (d : list (key * value)) (c : float) (q : value) :
  lookup (KStr "confidence") d = Some (VFloat c) ->
  WmOnnx.normalize_record trace_id idx (VDict d) = Ok q ->
  field "confidence" q = Some (VFloat c).
Proof.
  intros Hc H. unfold WmOnnx.normalize_record in H. cbv zeta in H.
  simpl py_get_or in H. cbn [bind] in H. unfold dict_get_or at 1 in H.
  rewrite Hc in H. simpl py_float in H.
  cbn [bind] in H.
  destruct (String.eqb _ "entity"); injection H as <-; reflexivity.
Qed.

Lemma onnx_loop_confidence (trace_id : value) (ps : list value) :
  forall idx fixed,
    Forall built ps ->
    WmOnnx.normalize_loop trace_id idx ps = Ok fixed ->
    Forall (confidence_within f0_55 f0_95) fixed.
Proof.
  induction ps as [| p ps IH]; simpl; intros idx fixed Hall H.
  - injection H as <-. constructor.
  - apply bind_ok in H. destruct H as (q & Hq & H).
    apply bind_ok in H. destruct H as (rest & Hrest & H).
    injection H as <-. inversion Hall as [| ? ? Hp Hps]; subst.
    constructor; [| eauto].
    destruct Hp as (d & c & -> & Hc & Hr).
    exists c. split; [| exact Hr].
    eapply onnx_record_keeps_confidence; eauto.
Qed.

(** C10. Whatever score the loaded ONNX model returns, every proposal the
    ONNX plugin builds from the export items has a confidence in
    [0.55, 0.95], and so has every proposal of the response it writes. *)
Theorem onnx_confidence_clamped :
  (forall (s : WmOnnx.session) (model_path : string) (idx : nat)
          (items ps : list value),
      WmOnnx.build_proposals s model_path idx items = Ok ps ->
      Forall (confidence_within f0_55 f0_95) ps)
  /\ (forall w : WmOnnx.world,
         Forall (confidence_within f0_55 f0_95)
                (response_proposals (WmOnnx.run w))).
Proof.
  split.
  - intros s model_path idx items ps H.
    eapply Forall_impl; [apply built_confidence_within |].
    eapply build_proposals_built; eauto.
  - intro w. unfold WmOnnx.run.
    destruct (WmOnnx.main w) as [out | exc] eqn:E; [| constructor].
    unfold WmOnnx.main in E.
    repeat (apply bind_ok in E;
            let x := fresh "x" in let Hx := fresh "Hx" in
            destruct E as (x & Hx & E)).
    injection E as <-.
    match goal with
    | Hn : WmOnnx._normalize_proposals _ _ ?ps = Ok ?file,
      Hb : WmOnnx.build_proposals _ _ _ _ = Ok ?ps |- _ =>
        unfold WmOnnx._normalize_proposals in Hn;
        apply bind_ok in Hn; destruct Hn as (fixed & Hloop & Hn);
        injection Hn as <-;
        simpl;
        eapply onnx_loop_confidence; [eapply build_proposals_built; exact Hb | exact Hloop]
    end.
Qed.

(** C6, amended. The LLM plugin answers every request whose protocol is
    neither [axiograph_llm_plugin_v2] nor [axiograph_llm_plugin_v3] with
    exactly the object [error: unsupported protocol], a newline, and exit
    status 0.  The baseline world-model plugin turns down a protocol other
    than [axiograph_world_model_v1] by raising [SystemExit] with that
    message: nothing is written and the exit status is 1. *)
Theorem unsupported_protocol_response (req breq : list (key * value))
  (w : WmBaseline.world) :
  supported_protocol (dict_get "protocol" req) = false ->
  WmBaseline.stdin w = JsonText (VDict breq) ->
  eq_str (dict_get "protocol" breq) "axiograph_world_model_v1" = false ->
  LlmMock.run (JsonText (VDict req))
  = {| stdout := [Dump (VDict ["error" :-> VStr "unsupported protocol"]);
                  Text LlmMock.newline];
       exit_code := 0 |}
  /\ WmBaseline.run w = {| stdout := []; exit_code := 1 |}.
Proof.
  intros Hp Hw Hb. split.
  - unfold LlmMock.run, LlmMock.main, supported_protocol in *. simpl.
    now rewrite Hp.
  - unfold WmBaseline.run, WmBaseline.main. rewrite Hw. simpl. now rewrite Hb.
Qed.

End Proofs.

(** The LLM plugin does not serve the world-model protocol, and the
    baseline plugin does not serve the LLM protocol. *)
Lemma unsupported_protocol_response_witness :
  LlmMock.run (I := plain_interp)
    (JsonText (VDict ["protocol" :-> VStr "axiograph_world_model_v1"]))
  = {| stdout := [Dump (VDict ["error" :-> VStr "unsupported protocol"]);
                  Text LlmMock.newline];
       exit_code := 0 |}
  /\ WmBaseline.run (I := plain_interp)
       (baseline_world (VDict ["protocol" :-> VStr "axiograph_llm_plugin_v3"]))
     = {| stdout := []; exit_code := 1 |}.
Proof.
  exact (unsupported_protocol_response (I := plain_interp)
           ["protocol" :-> VStr "axiograph_world_model_v1"]
           ["protocol" :-> VStr "axiograph_llm_plugin_v3"]
           (baseline_world (VDict ["protocol" :-> VStr "axiograph_llm_plugin_v3"]))
           eq_refl eq_refl eq_refl).
Defined.

(** C6, as stated, fails on the baseline world-model plugin: a request with
    an unknown protocol gets no response object and exit status 1. *)
Lemma baseline_unsupported_protocol_exits_1 :
  WmBaseline.main (I := plain_interp)
    (baseline_world (VDict [ "protocol" :-> VStr "axiograph_world_model_v2";
                             "trace_id" :-> VStr "t1" ]))
  = Ok (WmBaseline.Exit "unsupported protocol")
  /\ WmBaseline.run (I := plain_interp)
       (baseline_world (VDict [ "protocol" :-> VStr "axiograph_world_model_v2";
                                "trace_id" :-> VStr "t1" ]))
     = {| stdout := []; exit_code := 1 |}.
Proof. split; reflexivity. Qed.

(** C7, as stated, fails on the baseline world-model plugin: processing the
    broken pair raises, no envelope is written and the exit status is 1. *)
Lemma baseline_failure_writes_no_envelope :
  WmBaseline.main (I := plain_interp) (baseline_world broken_pair_request)
  = Raise ValueError
  /\ WmBaseline.run (I := plain_interp) (baseline_world broken_pair_request)
     = {| stdout := []; exit_code := 1 |}.
Proof. split; reflexivity. Qed.

(** The ONNX plugin on the same request: the error envelope and status 2. *)
Lemma onnx_failure_writes_envelope :
  WmOnnx.run (I := plain_interp) (onnx_world broken_pair_request f5_0)
  = {| stdout := [Dump (WmOnnx.error_envelope (I := plain_interp) 1700000000 ValueError)];
       exit_code := 2 |}.
Proof. reflexivity. Qed.

(** A run of the ONNX plugin whose model scores 5.0: the one proposal of
    the response has confidence 0.95. *)
Lemma onnx_confidence_clamped_witness :
  (exists p, response_proposals
               (WmOnnx.run (I := plain_interp) (onnx_world export_request f5_0)) = [p]
             /\ field "confidence" p = Some (VFloat f0_95))
  /\ Forall (confidence_within f0_55 f0_95)
            (response_proposals
               (WmOnnx.run (I := plain_interp) (onnx_world export_request f5_0))).
Proof.
  split.
  - eexists. split; reflexivity.
  - exact (proj2 (onnx_confidence_clamped (I := plain_interp))
             (onnx_world export_request f5_0)).
Defined.

End WorldModelProofs.
